(* ===== verification/_CoqProject ===== *)
-Q . S2P
Prelude.v
PyStr.v
Catalog.v
Expander.v
Matcher.v
Service.v
Json.v
Router.v
Startup.v
Process.v
