(* ===== verification/Prelude.v ===== *)
(** * A verification development for serhoyos/my_movies ([src/main.py])

    The program is a FastAPI service over a movie catalog read from a CSV
    file.  It has six parts:

    - the module body, run once at import (main.py 22-52).  It extends
      NLTK's data path, downloads the [punkt] and [wordnet] resources,
      loads [movies_list] and creates the FastAPI [app];
    - the catalog loader [load_movies] (main.py 31-42).  It selects six
      columns, renames them, replaces missing cells by [''] and produces the
      process-wide [movies_list] once, at import time;
    - the synonym expander [get_synonyms] (main.py 46-48), a set
      comprehension over NLTK WordNet's synsets and lemmas;
    - the query expander (main.py 81-84, inside [chatbot]).  It lowercases
      the query and tokenizes it with NLTK's [word_tokenize].  Then it unions
      the synonyms of every token with the tokens themselves;
    - the matchers: the list comprehension of [chatbot] (main.py 87) keeps
      the records whose lowercased category contains a term.  The one of
      [get_movies_by_category] (main.py 100) keeps the records whose
      category contains the lowercased argument;
    - the HTTP handlers [home], [get_movies], [get_movie], [chatbot] and
      [get_movies_by_category] (main.py 56-100), and the FastAPI route table
      that their decorators build.

    Data flow: query text -> tokens -> term set -> substring filter over
    [movies_list] -> JSON envelope.

    ** Files

    - [Prelude] (this file): Python's evaluation of the fragments used:
      the exception type [exn], the result type [result] of a computation
      that returns or raises, with its bind notation in [py_scope];
      list comprehensions with a condition ([py_filter]) and [any] over a
      generator ([py_any]), both short-circuiting and propagating the first
      exception.  Also the tactics and the hint database [pymovies] and the
      generic lemmas on lists and permutations.
    - [PyStr]: Python's [str.lower] on the ASCII range ([lower]) and
      the substring operator [in] ([contains]), proved equal to the
      specification "[n] occurs in [h]" ([contains_spec]).
    - [Catalog]: cells, rows and tables as pandas hands them over, the
      record type [movie] of the six renamed columns, and [load_movies] with
      its column selection (a [KeyError] on a missing column), renaming,
      [fillna('')] and [to_dict('records')].
    - [Expander]: the NLTK capabilities as type classes ([WordNet]: synsets,
      lemmas, names; [Tokenizer]: [word_tokenize]), [get_synonyms] and
      [query_terms] (the set [synonyms] of [chatbot]).  It also holds a
      small WordNet and an NLTK-like tokenizer used as test doubles.
    - [Matcher]: the per-record tests and filters of [chatbot] and
      [get_movies_by_category].  It states them as an abstract
      specification ([matches_terms]) and proves the refinement theorems.
    - [Service]: the handlers over an explicit [movies_list], the values
      they return ([pyret]), and the status code FastAPI gives a returned
      or raised value ([status_of]).
    - [Json]: the JSON body FastAPI sends for each returned value (record
      dicts with the renamed keys, the [detalle] payload, the [chatbot]
      envelope, the [vars()] of the returned [HTTPException]).  It holds
      the [JsonCodec] contract between the service and a client, with
      instances for cells, movies and movie lists, and the client decoders.
    - [Router]: the route table of the decorators, Starlette's path
      matching in declaration order, the required query parameters, and a
      client that follows redirects with fuel ([client_fetch]).  The router
      calls a record of [handlers], one per endpoint; [serve] is [dispatch]
      over the handlers of [Service].  Handler records are compared
      pointwise ([≡]), and [dispatch] and [client_fetch] respect that.
    - [Startup]: the module body as explicit state passing over NLTK's
      state: the data path and the installed resources, with [path_append],
      [nltk_download] and [import_main].  It also holds the lazy resource
      lookups of the running [chatbot] ([chatbot_app]) and the [LookupError]
      they raise.  [app_handlers] is the handler set the running process
      registers, with [chatbot_app] in place of [Service.chatbot].
    - [Process]: the server process as a labelled step relation: boot by
      the import (to a running state or a crash), then one request at a
      time against the module state and NLTK's lazy-load caches
      ([chatbot_proc], [serve_proc]); [serve_all] is its executable
      version.

    ** What the theorems show

    - Strings: [contains] decides substring occurrence; [lower] is
      idempotent, so a lowercased term never changes when lowercased again.
    - Loader: a table without one of the six columns fails with
      [KeyError].  Otherwise there is one record per row, each field is the
      cell of the first header column of that name, or [''] where it is NaN
      or past the end of the row, and a text category column gives a catalog whose
      categories are all strings.
    - Expander: the term set contains every token and the synonyms of
      every token, and nothing else.  Synonyms are lowercase, and so is
      every term when the tokenizer keeps lowercase text lowercase.  A word
      with no synset has no synonyms.
    - Matcher: both filters keep the catalog's order and are idempotent.
      Their members are the records the specification describes.  An empty
      term set matches nothing and an empty category matches everything.
      The result does not depend on the iteration order of the Python set.
      On a well-formed catalog nothing raises.  A non-string category
      raises [AttributeError] exactly when the term set is not empty.
    - Service: [get_movie] never raises; it returns the first record with
      the id, or the not-found payload.  An integer id never matches a string.
      [get_movies] on an empty catalog returns, not raises, its
      [HTTPException], so the response has status 200.  [chatbot]'s
      message says whether records were found.
    - Bounds and monotonicity: the term set has at most one term per token
      plus the lemmas of its synsets ([query_terms_size]).  More terms only
      add records ([chatbot_results_mono]).
    - Bodies: movie lists survive the JSON round trip.  A client recovers
      [get_movie]'s tagged result from its body.  The body of [GET /movies]
      on an empty catalog is not a movie list.
    - Router: which handler a path reaches.  The category endpoint is
      reached by "/movies/by_category/" only; without the trailing slash
      the path reaches [get_movie] ([by_category_reachability]).  The
      target of a slash redirect of main.py's table is always handled, and
      never by the category endpoint ([redirect_target_handled]), so no
      redirect chain has two steps ([redirect_step_wf]) and a client
      following redirects has its answer after two requests
      ([client_fetch_settles]).
    - Import: the import fails exactly when [load_movies] raises
      ([import_main_Raise]).  After it, the data path has the home directory
      appended, and the resources found are those installed before plus the
      successful downloads ([import_main_resources]).  When both downloads
      succeed, the running process answers every request, and every
      redirect-following client, as [serve] over the loaded catalog
      ([serve_app_refines]).  End to end, with the tokenizer's data and
      WordNet on the path and no integer category, the running process
      never answers 500 ([serve_app_no_server_error]).  The running
      [chatbot] answers 500 exactly when NLTK's data is missing or a
      non-string category is reached ([chatbot_app_status]).
    - Process: by induction on the steps, every running state reachable
      from boot holds the catalog [load_movies] read, unchanged, and caches
      that record only existing resources ([process_state_invariant]).
      Hence the caches are transparent: every response of every trace is
      the one [dispatch] gives to that request alone ([process_responses]).
      A process whose import raised answers nothing
      ([process_crash_silent]).  Without [punkt_tab] the failure of
      [chatbot] is permanent in every trace
      ([process_punkt_tab_permanent]).

    Findings the theorems witness: punctuation tokens of NLTK match the
    comma separators of categories ([chatbot_token_selects]).  The empty
    catalog is answered with status 200 ([get_movies_status]).  The
    category route without its slash is shadowed by [/movies/{id}]
    ([by_category_reachability]).  Integer ids never match
    ([get_movie_int_ids]).  A missing column stops the service at import
    ([load_movies_KeyError]).  The import downloads [punkt] while NLTK
    3.8.2 and later tokenize with [punkt_tab], so every [chatbot] call
    raises [LookupError]: every request to [/chatbot] with a query is
    answered 500, the blank one included, while the other routes are
    unaffected ([serve_app_punkt_tab]).

    ** Recursion and bounds

    Every function of the service is structurally recursive on a list or a
    string, so no fuel is needed and every definition computes by
    [vm_compute].  The one fuelled function is the redirect-following
    client [client_fetch].  Two requests are enough for it, because a
    redirect target never redirects.  A download's success and its
    directory depend on the machine, so they are parameters of
    [import_main]; the witnesses take a fresh machine with network access.
    The witnesses evaluate the handlers on the spec's two-record catalog with
    the test doubles of [Expander].  Status codes are Z values; there is no
    machine integer in main.py.

    ** Further work

    - percent-decoding of path parameters and the 405 answer to non-GET
      methods in [Router];
    - concurrent requests: FastAPI runs the sync handlers in a thread
      pool, and NLTK's [LazyCorpusLoader] is not thread-safe during its
      first load; [Process] serves requests one after another;
    - a closer model of NLTK's Treebank rules as a second tokenizer
      instance, to check [TokenizerLaws] against it.

    ** Not modelled

    pandas' CSV parser (the table it produces is the input of
    [load_movies]), and its float and boolean cells ([Catalog.cell] has
    strings and integers only); the list of all missing columns in pandas'
    [KeyError] message (the model names the first); NLTK's Punkt/Treebank
    tokenizer and WordNet database, including morphy lemmatisation (interfaces, instantiated only by test
    doubles); Unicode case mapping beyond ASCII (bytes >= 128 are left
    unchanged, which Python does not do for e.g. "É"); the character-level
    text of JSON bodies ([Json] models their structure); the network
    transfer and unzipping of [nltk.download], and NLTK's resource lookup
    beyond "some directory of the path holds it": [Startup] takes these from
    NLTK's documented behaviour, not from code of the repository. *)

From stdpp Require Export base list gmap sets strings.
From Stdlib Require Export Ascii ZArith.

Declare Scope py_scope.
Delimit Scope py_scope with py.

(** ** Python exceptions and computations that may raise *)

(** The exceptions the modelled code can raise. *)
Inductive exn : Type :=
| AttributeError (tyname attr : string)
| KeyError (key : string)
| LookupError (resource : string).

Inductive result (A : Type) : Type :=
| Ok (a : A)
| Raise (e : exn).
Arguments Ok {A} a.
Arguments Raise {A} e.

Definition bind {A B} (c : result A) (k : A -> result B) : result B :=
  match c with
  | Ok a => k a
  | Raise e => Raise e
  end.

Notation "x <- c ;; k" := (bind c (fun x => k))
  (at level 60, c at next level, right associativity) : py_scope.

Open Scope py_scope.

(** [any(f(x) for x in xs)]: evaluates [f] left to right, stops at the
    first [True], and propagates an exception. *)
Fixpoint py_any {A} (f : A -> result bool) (xs : list A) : result bool :=
  match xs with
  | [] => Ok false
  | x :: xs' => b <- f x ;; if b then Ok true else py_any f xs'
  end.

(** [[x for x in xs if f(x)]]: evaluates the condition left to right and
    propagates the first exception. *)
Fixpoint py_filter {A} (f : A -> result bool) (xs : list A) : result (list A) :=
  match xs with
  | [] => Ok []
  | x :: xs' =>
      b <- f x ;;
      r <- py_filter f xs' ;;
      Ok (if b then x :: r else r)
  end.

Create HintDb pymovies.
Create Rewrite HintDb pymovies.

(** Closes a decidable proposition about concrete data by evaluation. *)
Ltac decide_by_eval :=
  match goal with |- ?P => apply (bool_decide_unpack P); vm_compute; exact I end.

(** ** Generic lemmas *)

Lemma bind_Ok {A B} (a : A) (k : A -> result B) : bind (Ok a) k = k a.
Proof. reflexivity. Qed.

Lemma bind_Raise {A B} (e : exn) (k : A -> result B) : bind (Raise e) k = Raise e.
Proof. reflexivity. Qed.

#[export] Hint Rewrite @bind_Ok @bind_Raise : pymovies.

(** A condition that never raises makes [any] the boolean [existsb]. *)
Lemma py_any_pure {A} (f : A -> bool) xs :
  py_any (fun x => Ok (f x)) xs = Ok (List.existsb f xs).
Proof. induction xs as [|x xs IH]; simpl; [done|]. by destruct (f x). Qed.

(** A condition that never raises makes the comprehension [List.filter]. *)
Lemma py_filter_pure {A} (f : A -> bool) xs :
  py_filter (fun x => Ok (f x)) xs = Ok (List.filter f xs).
Proof. induction xs as [|x xs IH]; simpl; [done|]. rewrite IH. by destruct (f x). Qed.

#[export] Hint Rewrite @py_any_pure @py_filter_pure : pymovies.

(** Two conditions that agree on every element give the same comprehension. *)
Lemma py_filter_ext {A} (f g : A -> result bool) xs :
  (forall x, x ∈ xs -> f x = g x) -> py_filter f xs = py_filter g xs.
Proof.
  induction xs as [|x xs IH]; intros Hfg; simpl; [done|].
  rewrite (Hfg x (list_elem_of_here _ _)), IH; [done|].
  intros y Hy. apply Hfg. by apply list_elem_of_further.
Qed.

Lemma py_any_ext {A} (f g : A -> result bool) xs :
  (forall x, x ∈ xs -> f x = g x) -> py_any f xs = py_any g xs.
Proof.
  induction xs as [|x xs IH]; intros Hfg; simpl; [done|].
  rewrite (Hfg x (list_elem_of_here _ _)). destruct (g x) as [[]|]; simpl; [done| |done].
  apply IH. intros y Hy. apply Hfg. by apply list_elem_of_further.
Qed.

(** stdpp's [filter] on a decidable predicate is [List.filter] on its
    boolean test. *)
Lemma list_filter_bool_decide {A} (P : A -> Prop) `{!forall x, Decision (P x)} (l : list A) :
  filter P l = List.filter (fun x => bool_decide (P x)) l.
Proof.
  induction l as [|x l IH]; [done|]. rewrite filter_cons. simpl.
  case_bool_decide; case_decide; try done; by rewrite IH.
Qed.

(** A comprehension keeps a sublist of its input, in order. *)
Lemma py_filter_sublist {A} (f : A -> result bool) xs r :
  py_filter f xs = Ok r -> r `sublist_of` xs.
Proof.
  revert r. induction xs as [|x xs IH]; intros r; simpl; [intros [= <-]; done|].
  destruct (f x) as [[]|]; simpl; [| |done];
    destruct (py_filter f xs) as [r'|]; simpl; intros; simplify_eq;
    [by apply sublist_skip, IH|by apply sublist_cons, IH].
Qed.

(** A comprehension raises only when its condition raises on an element. *)
Lemma py_filter_Raise_inv {A} (f : A -> result bool) xs e :
  py_filter f xs = Raise e -> exists x, x ∈ xs /\ f x = Raise e.
Proof.
  induction xs as [|x xs IH]; simpl; [done|].
  destruct (f x) as [b|e'] eqn:Hx; simpl.
  - destruct (py_filter f xs) eqn:E; simpl; [done|].
    intros [= ->]. destruct IH as (y & ? & ?); [done|]. exists y. split; [by right|done].
  - intros [= ->]. exists x. split; [by left|done].
Qed.

(** A condition that can raise only [e] raises [e] on the whole
    comprehension as soon as it raises on one element. *)
Lemma py_filter_Raise_intro {A} (f : A -> result bool) xs e x :
  (forall y, y ∈ xs -> (exists b, f y = Ok b) \/ f y = Raise e) ->
  x ∈ xs -> f x = Raise e -> py_filter f xs = Raise e.
Proof.
  intros Hall. induction xs as [|y xs IH]; intros Hx Hfx; simpl; [by apply not_elem_of_nil in Hx|].
  destruct (Hall y (list_elem_of_here _ _)) as [[b Hb]|Hb]; rewrite Hb; simpl; [|done].
  apply elem_of_cons in Hx as [->|Hx]; [congruence|].
  rewrite IH; [done| |done|done]. intros z Hz. apply Hall. by right.
Qed.

Lemma existsb_perm {A} (f : A -> bool) (l1 l2 : list A) :
  l1 ≡ₚ l2 -> List.existsb f l1 = List.existsb f l2.
Proof.
  induction 1; simpl; try congruence.
  by destruct (f x), (f y).
Qed.

Lemma existsb_In_iff {A} (f : A -> bool) (l : list A) :
  List.existsb f l = true <-> exists x, In x l /\ f x = true.
Proof. apply List.existsb_exists. Qed.

(** A list extended by one element under a condition, as a Python
    statement run only when a call succeeded. *)
Lemma elem_of_app_if {A} (b : bool) (x y : A) l :
  x ∈ (if b then [y] else []) ++ l <-> (b = true /\ x = y) \/ x ∈ l.
Proof. destruct b; simpl; rewrite ?elem_of_cons; naive_solver. Qed.

Lemma filter_idem {A} (f : A -> bool) (l : list A) :
  List.filter f (List.filter f l) = List.filter f l.
Proof.
  induction l as [|x l IH]; simpl; [done|].
  destruct (f x) eqn:E; simpl; [rewrite E|]; by rewrite IH.
Qed.

Lemma filter_true_all {A} (f : A -> bool) (l : list A) :
  (forall x, In x l -> f x = true) -> List.filter f l = l.
Proof.
  induction l as [|x l IH]; intros H; simpl; [done|].
  rewrite (H x (or_introl eq_refl)), IH; [done|]. intros y Hy. apply H. by right.
Qed.

Lemma filter_false_nil {A} (f : A -> bool) (l : list A) :
  (forall x, In x l -> f x = false) -> List.filter f l = [].
Proof.
  induction l as [|x l IH]; intros H; simpl; [done|].
  rewrite (H x (or_introl eq_refl)). apply IH. intros y Hy. apply H. by right.
Qed.

Lemma find_Some_first {A} (p : A -> bool) (l : list A) x :
  List.find p l = Some x ->
  exists l1 l2, l = l1 ++ x :: l2 /\ p x = true /\ Forall (fun y => p y = false) l1.
Proof.
  induction l as [|y l IH]; simpl; [done|].
  destruct (p y) eqn:E.
  - intros [= ->]. exists [], l. by repeat split.
  - intros Hf. destruct (IH Hf) as (l1 & l2 & -> & Hx & Hl1).
    exists (y :: l1), l2. repeat split; [done|]. by constructor.
Qed.

Lemma find_app_first {A} (p : A -> bool) l1 x l2 :
  p x = true -> Forall (fun y => p y = false) l1 -> List.find p (l1 ++ x :: l2) = Some x.
Proof.
  intros Hx Hl1. induction Hl1 as [|y l1 Hy _ IH]; simpl; [by rewrite Hx|]. by rewrite Hy.
Qed.

(** [filter] is monotone in its predicate, as a sublist. *)
Lemma filter_sublist_mono {A} (P Q : A -> Prop) `{!forall x, Decision (P x)}
    `{!forall x, Decision (Q x)} (l : list A) :
  (forall x, P x -> Q x) -> filter P l `sublist_of` filter Q l.
Proof.
  intros HPQ. induction l as [|x l IH]; [done|]. rewrite !filter_cons.
  do 2 case_decide.
  - by apply sublist_skip.
  - exfalso. naive_solver.
  - by apply sublist_cons.
  - done.
Qed.

Lemma length_list_bind {A B} (f : A -> list B) (l : list A) :
  length (l ≫= f) = sum_list ((fun x => length (f x)) <$> l).
Proof.
  induction l as [|x l IH]; [done|].
  change ((x :: l) ≫= f) with (f x ++ l ≫= f). rewrite length_app, IH. done.
Qed.

Lemma sum_list_ones {A} (l : list A) : sum_list ((fun _ => 1) <$> l) = length l.
Proof. induction l as [|x l IH]; [done|]. rewrite fmap_cons. simpl. by rewrite IH. Qed.

Lemma sum_list_fmap_succ_le {A} (f g : A -> nat) (l : list A) :
  (forall x, f x <= g x) ->
  sum_list (f <$> l) + length l <= sum_list ((fun x => S (g x)) <$> l).
Proof.
  intros Hfg. induction l as [|x l IH]; [simpl; lia|].
  rewrite !fmap_cons. simpl. specialize (Hfg x). lia.
Qed.

Section set_size.
Context `{Countable A}.
Implicit Types X Y : gset A.

Lemma size_union_le X Y : size (X ∪ Y) <= size X + size Y.
Proof.
  rewrite size_union_alt. pose proof (subseteq_size (Y ∖ X) Y ltac:(set_solver)). lia.
Qed.

Lemma size_list_to_set_le (l : list A) : size (list_to_set l : gset A) <= length l.
Proof.
  induction l as [|x l IH].
  - change (size (∅ : gset A) <= 0). by rewrite size_empty.
  - change (size ({[x]} ∪ list_to_set l : gset A) <= S (length l)).
    etrans; [apply size_union_le|]. rewrite size_singleton. lia.
Qed.

Lemma size_union_list_le (Xs : list (gset A)) : size (⋃ Xs) <= sum_list (size <$> Xs).
Proof.
  induction Xs as [|X Xs IH].
  - change (size (∅ : gset A) <= 0). by rewrite size_empty.
  - change (size (X ∪ ⋃ Xs) <= size X + sum_list (size <$> Xs)).
    etrans; [apply size_union_le|]. lia.
Qed.

End set_size.

#[export] Hint Resolve filter_idem filter_true_all filter_false_nil : pymovies.
