(* ===== verification/PyStr.v ===== *)
(** Python's [str.lower] and substring operator [in], on strings of bytes.

    [lower] maps the ASCII letters A-Z to a-z and leaves every other byte
    unchanged.  That is CPython's [str.lower] on ASCII text.  Case mapping
    of non-ASCII code points is not modelled.  [contains n h] is Python's
    [n in h] for two strings.  It is computed by a naive scan, and
    [contains_spec] proves that it holds exactly when [h = a + n + b] for
    some [a] and [b]. *)

From S2P Require Import Prelude.

Open Scope stdpp_scope.

Definition lower_char (c : ascii) : ascii :=
  let n := nat_of_ascii c in
  if Nat.leb 65 n && Nat.leb n 90 then ascii_of_nat (n + 32) else c.

Fixpoint lower (s : string) : string :=
  match s with
  | EmptyString => EmptyString
  | String c s' => String (lower_char c) (lower s')
  end.

(** [s.startswith(p)]. *)
Fixpoint prefixb (p s : string) : bool :=
  match p, s with
  | EmptyString, _ => true
  | String a p', String b s' => Ascii.eqb a b && prefixb p' s'
  | String _ _, EmptyString => false
  end.

(** [n in h] *)
Fixpoint contains (n h : string) : bool :=
  prefixb n h ||
  match h with
  | EmptyString => false
  | String _ h' => contains n h'
  end.

(** A string is lowercase when [lower] leaves it unchanged. *)
Definition is_lower (s : string) : Prop := lower s = s.

#[export] Instance is_lower_dec s : Decision (is_lower s).
Proof. unfold is_lower. apply _. Defined.

(** ** Lemmas *)

Lemma lower_char_idem c : lower_char (lower_char c) = lower_char c.
Proof.
  unfold lower_char.
  cbv zeta.
  destruct (Nat.leb 65 (nat_of_ascii c) && Nat.leb (nat_of_ascii c) 90) eqn:E.
  - apply andb_true_iff in E as [E1 E2].
    apply Nat.leb_le in E1, E2.
    rewrite nat_ascii_embedding by lia.
    assert (Nat.leb (nat_of_ascii c + 32) 90 = false) as -> by (apply Nat.leb_gt; lia).
    by rewrite andb_false_r.
  - by rewrite E.
Qed.

Lemma lower_idem s : lower (lower s) = lower s.
Proof. induction s as [|c s IH]; simpl; [done|]. by rewrite lower_char_idem, IH. Qed.

Lemma lower_is_lower s : is_lower (lower s).
Proof. apply lower_idem. Qed.

Lemma lower_app s1 s2 : lower (s1 +:+ s2) = lower s1 +:+ lower s2.
Proof. induction s1 as [|c s1 IH]; simpl; [done|]. by rewrite IH. Qed.

Lemma lower_length s : String.length (lower s) = String.length s.
Proof. induction s as [|c s IH]; simpl; auto. Qed.

#[export] Hint Rewrite lower_idem lower_app : pymovies.
#[export] Hint Resolve lower_is_lower : pymovies.

Lemma is_lower_app s1 s2 : is_lower s1 -> is_lower s2 -> is_lower (s1 +:+ s2).
Proof. unfold is_lower. intros H1 H2. by rewrite lower_app, H1, H2. Qed.

Lemma str_app_cons c s t : String c s +:+ t = String c (s +:+ t).
Proof. reflexivity. Qed.

Lemma str_app_nil t : "" +:+ t = t.
Proof. reflexivity. Qed.

Lemma str_app_nil_r s : s +:+ "" = s.
Proof. induction s as [|c s IH]; [done|]. by rewrite str_app_cons, IH. Qed.

#[export] Hint Rewrite str_app_cons str_app_nil str_app_nil_r : pymovies.

Lemma str_length_app a b : String.length (a +:+ b) = String.length a + String.length b.
Proof. induction a as [|x a IH]; [done|]. rewrite str_app_cons. simpl. by rewrite IH. Qed.

Lemma rev_app_app a b c : String.rev_app a (b +:+ c) = String.rev_app a b +:+ c.
Proof.
  revert b. induction a as [|x a IH]; intros b; [done|]. simpl.
  by rewrite <- IH, str_app_cons.
Qed.

Lemma rev_app_rev_app a b c : String.rev_app (String.rev_app a b) c = String.rev_app b (a +:+ c).
Proof. revert b. induction a as [|x a IH]; intros b; [done|]. simpl. by rewrite IH. Qed.

Lemma str_rev_involutive s : String.rev (String.rev s) = s.
Proof. unfold String.rev. by rewrite rev_app_rev_app, str_app_nil_r. Qed.

Lemma str_app_inj a b c d :
  String.length a = String.length c -> a +:+ b = c +:+ d -> a = c /\ b = d.
Proof.
  revert c. induction a as [|x a IH]; intros [|y c]; rewrite ?str_app_cons; simpl; try done.
  intros [= Hl] [= -> Ht]. destruct (IH c Hl Ht) as [-> ->]. done.
Qed.

Lemma is_lower_app_inv s1 s2 : is_lower (s1 +:+ s2) -> is_lower s1 /\ is_lower s2.
Proof.
  unfold is_lower. rewrite lower_app. apply str_app_inj, lower_length.
Qed.

Lemma prefixb_spec p s : prefixb p s = true <-> exists q, s = p +:+ q.
Proof.
  revert s. induction p as [|a p IH]; intros [|b s]; simpl.
  - split; [by exists ""|done].
  - split; [by exists (String b s)|done].
  - split; [done|]. by intros [q ?].
  - rewrite andb_true_iff, IH. split.
    + intros [Hab%Ascii.eqb_eq [q ->]]. subst. by exists q.
    + intros [q [= -> ->]]. split; [apply Ascii.eqb_refl|]. by exists q.
Qed.

(** [contains] is the substring relation. *)
Lemma contains_spec n h : contains n h = true <-> exists a b, h = a +:+ n +:+ b.
Proof.
  induction h as [|c h IH]; simpl; rewrite orb_true_iff, prefixb_spec.
  - split.
    + intros [[q Hq]|]; [|done]. by exists "", q.
    + intros ([|? a] & b & Hab); [|done]. left. by exists b.
  - rewrite IH. split.
    + intros [[q Hq]|(a & b & ->)].
      * by exists "", q.
      * by exists (String c a), b.
    + intros ([|c' a] & b & Hab); simpl in Hab.
      * left. by exists b.
      * injection Hab as -> ->. right. by exists a, b.
Qed.

Lemma contains_empty h : contains "" h = true.
Proof. apply contains_spec. by exists "", h. Qed.

Lemma contains_refl s : contains s s = true.
Proof. apply contains_spec. exists "", "". by rewrite str_app_nil, str_app_nil_r. Qed.

Lemma contains_nonempty_empty n : n <> "" -> contains n "" = false.
Proof. destruct n; [done|]. reflexivity. Qed.

(** Lowercasing both sides keeps an occurrence. *)
Lemma contains_lower n h : contains n h = true -> contains (lower n) (lower h) = true.
Proof.
  rewrite !contains_spec. intros (a & b & ->).
  exists (lower a), (lower b). by rewrite !lower_app.
Qed.

(** A substring of a lowercase string is lowercase. *)
Lemma contains_is_lower n h : contains n h = true -> is_lower h -> is_lower n.
Proof.
  rewrite contains_spec. intros (a & b & ->) H.
  apply is_lower_app_inv in H as [_ H]. by apply is_lower_app_inv in H as [H _].
Qed.

#[export] Hint Resolve contains_empty contains_refl contains_lower : pymovies.
