(* ===== verification/Catalog.v ===== *)
(** The catalog loader [load_movies] and the record type of [movies_list]
    (main.py 29-42).

    pandas parses the CSV into a table.  [load_movies] receives that table:
    a header and rows of cells.  A missing cell is [None] (pandas' NaN),
    and a row shorter than the header reads NaN in the missing positions,
    as [read_csv] pads it.  Cells are strings or integers, as pandas
    infers them.  An all-digit column such as [release_year] holds
    integers.  pandas also infers floats (an integer column with a
    missing cell becomes [float64]) and booleans; [cell] leaves them out,
    so the theorems speak of tables whose cells are strings or integers.
    Like an integer, a float or boolean category would have no
    [.lower()].  [load_movies] performs:
    - the column selection [df[[...]]].  It raises [KeyError] when a
      selected column is not in the header;
    - the renaming [df.columns = [...]];
    - [fillna('')];
    - [to_dict(orient='records')], which gives one [movie] per row, in
      order.
    pandas names duplicate headers [x], [x.1], ..., so a header read from
    CSV has no duplicates and the first position of a name is its
    position. *)

From S2P Require Import Prelude PyStr.

Open Scope stdpp_scope.

Module Catalog.

(** A cell of the table after type inference. *)
Inductive cell : Type :=
| CStr (s : string)
| CInt (z : Z).

#[export] Instance cell_eq_dec : EqDecision cell.
Proof. solve_decision. Defined.

(** The table [pd.read_csv] hands over. *)
Record table : Type := mkTable {
  header : list string;
  rows : list (list (option cell))
}.

(** One element of [movies_list]: the dict of the six renamed columns. *)
Record movie : Type := mkMovie {
  mid : cell;        (* m['id'] *)
  title : cell;
  year : cell;
  category : cell;
  rating : cell;
  overview : cell
}.

#[export] Instance movie_eq_dec : EqDecision movie.
Proof. solve_decision. Defined.

Definition selected_columns : list string :=
  ["show_id"; "title"; "release_year"; "listed_in"; "rating"; "description"].

Definition renamed_columns : list string :=
  ["id"; "title"; "year"; "category"; "rating"; "overview"].

(** Position of a column name in the header. *)
Fixpoint index_of (x : string) (l : list string) : option nat :=
  match l with
  | [] => None
  | y :: l' => if decide (x = y) then Some 0 else S <$> index_of x l'
  end.

(** [df[cols]]: the positions of the selected columns, or [KeyError]. *)
Fixpoint column_indices (hdr : list string) (cols : list string) : result (list nat) :=
  match cols with
  | [] => Ok []
  | c :: cs =>
      match index_of c hdr with
      | Some i => ixs <- column_indices hdr cs ;; Ok (i :: ixs)
      | None => Raise (KeyError c)
      end
  end.

(** The cell of a row at a position; past the end of a short row it is NaN. *)
Definition cell_at (r : list (option cell)) (i : nat) : option cell :=
  match r !! i with
  | Some c => c
  | None => None
  end.

(** [fillna('')]. *)
Definition fillna (c : option cell) : cell :=
  match c with
  | Some v => v
  | None => CStr ""
  end.

(** [df.columns = renamed_columns] then [to_dict(orient='records')]: the
    six selected cells, in the order of [renamed_columns]. *)
Definition to_record (vs : list cell) : movie :=
  match vs with
  | [i; t; y; c; r; o] => mkMovie i t y c r o
  | _ => mkMovie (CStr "") (CStr "") (CStr "") (CStr "") (CStr "") (CStr "")
  end.

Definition load_movies (t : table) : result (list movie) :=
  ixs <- column_indices (header t) selected_columns ;;
  Ok ((fun r => to_record ((fun i => fillna (cell_at r i)) <$> ixs)) <$> rows t).

(** The fields of a record, in the order of [renamed_columns]. *)
Definition fields (m : movie) : list cell :=
  [mid m; title m; year m; category m; rating m; overview m].

(** Every category is a string, so [m['category'].lower()] cannot raise. *)
Definition wf_movie (m : movie) : Prop := exists s, category m = CStr s.

Definition wf_catalog (ms : list movie) : Prop := Forall wf_movie ms.

#[export] Instance wf_movie_dec m : Decision (wf_movie m).
Proof.
  unfold wf_movie. destruct (category m) as [s|z].
  - left. by exists s.
  - right. by intros [s ?].
Defined.

#[export] Instance wf_catalog_dec ms : Decision (wf_catalog ms).
Proof. unfold wf_catalog. apply _. Defined.

(** ** Sample tables, in the layout of [Dataset/netflix_titles.csv] *)

Definition netflix_header : list string :=
  ["show_id"; "type"; "title"; "director"; "release_year"; "listed_in";
   "rating"; "description"].

(** Row 2 is short: its rating and description are NaN. *)
Definition sample_table : table := mkTable netflix_header
  [[Some (CStr "s1"); Some (CStr "Movie"); Some (CStr "Dick Johnson Is Dead");
    Some (CStr "Kirsten Johnson"); Some (CInt 2020); Some (CStr "Documentaries");
    Some (CStr "PG-13"); None];
   [Some (CStr "s2"); Some (CStr "TV Show"); Some (CStr "Blood & Water"); None;
    Some (CInt 2021); Some (CStr "International TV Shows, TV Dramas")]].

(** A table whose export dropped the [listed_in] column. *)
Definition table_without_category : table :=
  mkTable ["show_id"; "title"; "release_year"; "rating"; "description"]
    [[Some (CStr "s1"); Some (CStr "x"); Some (CInt 2020); None; None]].

(** A record with the given id and category; the other fields as in the
    dataset. *)
Definition movie_of (i cat : string) : movie :=
  mkMovie (CStr i) (CStr "A title") (CInt 2020) (CStr cat) (CStr "TV-MA") (CStr "").

(** The catalog of the spec's scenarios. *)
Definition spec_catalog : list movie :=
  [movie_of "1" "Action, Comedy"; movie_of "2" "Drama"].

(** A catalog whose second category is an integer: it would come from a
    CSV file whose [listed_in] column holds only numbers. *)
Definition int_category_catalog : list movie :=
  [movie_of "1" "Action, Comedy";
   mkMovie (CStr "2") (CStr "B") (CInt 2021) (CInt 7) (CStr "R") (CStr "")].

(** The spec's catalog as pandas reads it when the [show_id] column holds
    only digits: the ids become integers. *)
Definition int_id_catalog : list movie :=
  [mkMovie (CInt 1) (CStr "A title") (CInt 2020) (CStr "Action, Comedy") (CStr "TV-MA") (CStr "");
   mkMovie (CInt 2) (CStr "A title") (CInt 2020) (CStr "Drama") (CStr "TV-MA") (CStr "")].

(** ** Lemmas *)

Lemma index_of_Some x l i : index_of x l = Some i -> l !! i = Some x.
Proof.
  revert i. induction l as [|y l IH]; intros i; simpl; [done|].
  case_decide; [intros [= <-]; by subst|].
  destruct (index_of x l) eqn:E; simpl; [|done]. intros [= <-]. by apply IH.
Qed.

Lemma index_of_first x l i :
  index_of x l = Some i -> forall j, j < i -> l !! j <> Some x.
Proof.
  revert i. induction l as [|y l IH]; intros i; simpl; [done|].
  case_decide as Hxy; [intros [= <-]; lia|].
  destruct (index_of x l) as [i'|] eqn:E; simpl; [|done]. intros [= <-] [|j] Hj; simpl.
  - intros [= ->]. done.
  - apply (IH i' eq_refl). lia.
Qed.

Lemma index_of_None x l : index_of x l = None <-> x ∉ l.
Proof.
  induction l as [|y l IH]; simpl.
  - split; [intros _; apply not_elem_of_nil|done].
  - rewrite elem_of_cons. case_decide; [naive_solver|].
    destruct (index_of x l); simpl; naive_solver.
Qed.

Lemma column_indices_Ok hdr cols ixs :
  column_indices hdr cols = Ok ixs ->
  Forall2 (fun c i => index_of c hdr = Some i) cols ixs.
Proof.
  revert ixs. induction cols as [|c cs IH]; intros ixs; simpl.
  - intros [= <-]. constructor.
  - destruct (index_of c hdr) eqn:E; [|done].
    destruct (column_indices hdr cs) eqn:E'; simpl; [|done].
    intros [= <-]. constructor; auto.
Qed.

Lemma column_indices_Raise hdr cols e :
  column_indices hdr cols = Raise e -> exists c, e = KeyError c /\ c ∈ cols /\ c ∉ hdr.
Proof.
  induction cols as [|c cs IH]; simpl; [done|].
  destruct (index_of c hdr) eqn:E.
  - destruct (column_indices hdr cs) eqn:E'; simpl; [done|].
    intros [= <-]. destruct (IH eq_refl) as (c' & -> & ? & ?).
    exists c'. split_and!; [done| |done]. by apply elem_of_cons; right.
  - intros [= <-]. exists c. split_and!; [done|apply elem_of_cons; by left|].
    by apply index_of_None.
Qed.

Lemma column_indices_all_present hdr cols :
  (forall c, c ∈ cols -> c ∈ hdr) -> exists ixs, column_indices hdr cols = Ok ixs.
Proof.
  induction cols as [|c cs IH]; intros H; simpl; [by eexists|].
  destruct (index_of c hdr) eqn:E.
  - destruct IH as [ixs ->]; [intros c' ?; apply H, elem_of_cons; by right|].
    by eexists.
  - exfalso. apply index_of_None in E. apply E, H, elem_of_cons. by left.
Qed.

Lemma to_record_fields vs : length vs = 6 -> fields (to_record vs) = vs.
Proof. intros H. do 6 (destruct vs as [|? vs]; try done). by destruct vs. Qed.

Lemma load_movies_Ok_inv t ms :
  load_movies t = Ok ms ->
  exists ixs, column_indices (header t) selected_columns = Ok ixs /\
    ms = (fun r => to_record ((fun i => fillna (cell_at r i)) <$> ixs)) <$> rows t.
Proof.
  unfold load_movies. destruct (column_indices _ _) as [ixs|]; simpl; [|done].
  intros [= <-]. by exists ixs.
Qed.

Lemma load_movies_fields t ms :
  load_movies t = Ok ms ->
  Forall2 (fun r m =>
    forall k c, selected_columns !! k = Some c ->
    exists i, index_of c (header t) = Some i /\ fields m !! k = Some (fillna (cell_at r i)))
    (rows t) ms.
Proof.
  intros (ixs & Hc%column_indices_Ok & ->)%load_movies_Ok_inv.
  apply Forall2_fmap_r, Forall_Forall2_diag, Forall_forall. intros r _ k c Hk.
  destruct (Forall2_lookup_l _ _ _ _ _ Hc Hk) as (i & Hi & Hidx).
  exists i. split; [done|].
  rewrite to_record_fields by (rewrite length_fmap; by rewrite <- (Forall2_length _ _ _ Hc)).
  by rewrite list_lookup_fmap, Hi.
Qed.

Lemma loaded_catalog_wf t ms j :
  index_of "listed_in" (header t) = Some j ->
  (forall r, r ∈ rows t -> forall z, cell_at r j <> Some (CInt z)) ->
  load_movies t = Ok ms -> wf_catalog ms.
Proof.
  intros Hj Hrows Hload.
  pose proof (load_movies_fields t ms Hload) as Hf.
  apply Forall_forall. intros m Hm.
  destruct (list_elem_of_lookup_1 _ _ Hm) as [k Hk].
  destruct (Forall2_lookup_r _ _ _ _ _ Hf Hk) as (r & Hr & Hrm).
  destruct (Hrm 3 "listed_in" eq_refl) as (i & Hi & Hcat).
  rewrite Hj in Hi. injection Hi as <-. simpl in Hcat. injection Hcat as Hcat.
  unfold wf_movie. rewrite Hcat.
  specialize (Hrows r (list_elem_of_lookup_2 _ _ _ Hr)).
  destruct (cell_at r j) as [[s|z]|]; simpl; [by eexists|by destruct (Hrows z)|by eexists].
Qed.

(** ** Theorems *)

(** C30: [load_movies] returns a catalog exactly when the header has all six
    selected columns ([df[[...]]] succeeds). *)
Theorem load_movies_total t :
  (exists ms, load_movies t = Ok ms) <-> Forall (fun c => c ∈ header t) selected_columns.
Proof.
  rewrite Forall_forall. split.
  - intros [ms (ixs & Hc & _)%load_movies_Ok_inv] c Hc'.
    apply column_indices_Ok in Hc.
    destruct (list_elem_of_lookup_1 _ _ Hc') as [k Hk].
    destruct (Forall2_lookup_l _ _ _ _ _ Hc Hk) as (i & _ & Hi).
    apply index_of_Some in Hi. by eapply list_elem_of_lookup_2.
  - intros H. destruct (column_indices_all_present (header t) selected_columns H) as [ixs E].
    unfold load_movies. rewrite E. by eexists.
Qed.

(** C31: when [load_movies] raises, the exception is a [KeyError] naming a
    selected column that the header lacks. *)
Theorem load_movies_KeyError t e :
  load_movies t = Raise e ->
  exists c, e = KeyError c /\ c ∈ selected_columns /\ c ∉ header t.
Proof.
  unfold load_movies. destruct (column_indices _ _) eqn:E; simpl; [done|].
  intros [= <-]. by apply column_indices_Raise.
Qed.

(** C34: [load_movies] gives one record per row, in order, and the k-th
    field of a record is the row's cell in the first column of the header
    named by the k-th selected column, or [''] where that cell is NaN or
    past the end of the row. *)
Theorem load_movies_rows t ms :
  load_movies t = Ok ms ->
  Forall2 (fun r m =>
    forall k c, selected_columns !! k = Some c ->
    exists i, header t !! i = Some c /\ (forall j, j < i -> header t !! j <> Some c) /\
      fields m !! k = Some (match r !! i with Some (Some v) => v | _ => CStr "" end))
    (rows t) ms.
Proof.
  intros H. eapply Forall2_impl; [apply (load_movies_fields _ _ H)|].
  intros r m Hrm k c Hk. destruct (Hrm k c Hk) as (i & Hi & Hf).
  exists i. split_and!; [by apply index_of_Some|by apply index_of_first|].
  rewrite Hf. unfold cell_at. by destruct (r !! i) as [[]|].
Qed.

(** C35: when no cell of the category column ([listed_in]) is an integer,
    every loaded record's category is a string: the catalog is well formed. *)
Theorem load_movies_wf t ms j :
  index_of "listed_in" (header t) = Some j ->
  (forall r, r ∈ rows t -> forall z, cell_at r j <> Some (CInt z)) ->
  load_movies t = Ok ms -> wf_catalog ms.
Proof. apply loaded_catalog_wf. Qed.

(** ** Witnesses *)

Lemma load_movies_KeyError_witness :
  load_movies table_without_category = Raise (KeyError "listed_in") /\
  exists c, KeyError "listed_in" = KeyError c /\ c ∈ selected_columns /\
            c ∉ header table_without_category.
Proof.
  split; [reflexivity|]. apply (load_movies_KeyError table_without_category). reflexivity.
Defined.

Lemma load_movies_rows_witness :
  exists ms, load_movies sample_table = Ok ms /\
  Forall2 (fun r m =>
    forall k c, selected_columns !! k = Some c ->
    exists i, header sample_table !! i = Some c /\
      (forall j, j < i -> header sample_table !! j <> Some c) /\
      fields m !! k = Some (match r !! i with Some (Some v) => v | _ => CStr "" end))
    (rows sample_table) ms.
Proof.
  eexists. split; [vm_compute; reflexivity|].
  apply (load_movies_rows sample_table). vm_compute. reflexivity.
Defined.

Lemma load_movies_wf_witness :
  exists ms, load_movies sample_table = Ok ms /\ wf_catalog ms.
Proof.
  eexists. split; [vm_compute; reflexivity|].
  apply (load_movies_wf sample_table _ 5); [reflexivity| |vm_compute; reflexivity].
  rewrite <- Forall_forall. repeat constructor; intros z; discriminate.
Defined.

End Catalog.
