(* ===== verification/Expander.v ===== *)
(** The synonym expander [get_synonyms] (main.py 46-48) and the query
    expansion at the start of [chatbot] (main.py 81-84).

    NLTK is a library, not code of this repository.  It enters the model
    through two interfaces, stated as type classes:
    - [WordNet] has the three calls main.py makes: [wordnet.synsets(word)],
      [syn.lemmas()] and [lemma.name()].  Synsets and lemmas are abstract
      types;
    - [Tokenizer] has [word_tokenize].  [TokenizerLaws] states the two
      properties of NLTK's tokenizer that the theorems use.  Tokenizing
      lowercase text yields lowercase tokens: Treebank only splits, pads and
      rewrites quotes.  Whitespace-only text yields no token.
    The theorems of the [Expansion] section hold for every implementation
    of these interfaces.  [TestDoubles] gives one of each, used to evaluate
    the witnesses.  It has a WordNet of a few words and a tokenizer that,
    like NLTK's, splits at whitespace and makes each punctuation mark a
    token of its own. *)

From S2P Require Import Prelude PyStr.

Open Scope stdpp_scope.

Module Expander.

Class WordNet := {
  Synset : Type;
  WLemma : Type;
  synsets : string -> list Synset;        (* wordnet.synsets(word) *)
  lemmas : Synset -> list WLemma;         (* syn.lemmas() *)
  lemma_name : WLemma -> string           (* lemma.name() *)
}.

Class Tokenizer := {
  word_tokenize : string -> list string   (* nltk.tokenize.word_tokenize *)
}.

(** Whitespace-only text, as [str.isspace] sees it on ASCII (or empty). *)
Definition is_blank (s : string) : bool :=
  forallb Ascii.is_space (String.list_ascii_of_string s).

Class TokenizerLaws `{Tokenizer} := {
  word_tokenize_lower s : is_lower s -> Forall is_lower (word_tokenize s);
  word_tokenize_blank s : is_blank s = true -> word_tokenize s = []
}.

Section Expansion.
Context `{WN : WordNet} `{TK : Tokenizer}.

(** [{lemma.name().lower() for syn in wordnet.synsets(word)
                            for lemma in syn.lemmas()}] *)
Definition get_synonyms (word : string) : gset string :=
  list_to_set (syn ← synsets word; lem ← lemmas syn; [lower (lemma_name lem)]).

(** [query_words = word_tokenize(query.lower())] *)
Definition query_words (query : string) : list string :=
  word_tokenize (lower query).

(** [synonyms = {word for q in query_words for word in get_synonyms(q)}
                | set(query_words)] *)
Definition query_terms (query : string) : gset string :=
  let qw := query_words query in
  ⋃ (get_synonyms <$> qw) ∪ list_to_set qw.

End Expansion.

(** ** Test doubles *)
Module TestDoubles.

(** A WordNet given by a table from words to synsets, a synset being the
    list of its lemma names. *)
Definition wordnet_of (db : list (string * list (list string))) : WordNet := {|
  Synset := list string;
  WLemma := string;
  synsets w := default [] (snd <$> List.find (fun e => bool_decide (fst e = w)) db);
  lemmas syn := syn;
  lemma_name l := l
|}.

Definition small_db : list (string * list (list string)) :=
  [("funny", [["funny"; "amusing"; "comic"; "Comedy"]; ["curious"; "odd"; "peculiar"]]);
   ("scary", [["scary"; "frightening"; "Horror"]]);
   ("film", [["movie"; "film"; "picture"]])].

Definition small_wordnet : WordNet := wordnet_of small_db.

Definition is_punct (c : ascii) : bool :=
  bool_decide (c ∈ String.list_ascii_of_string ",.!?;:&()'" \/ c = "034"%char).

(** Emits the word accumulated (reversed) in [cur], if any. *)
Definition flush (cur : string) : list string :=
  match cur with
  | EmptyString => []
  | _ => [String.rev cur]
  end.

Fixpoint tokenize_go (cur : string) (s : string) : list string :=
  match s with
  | EmptyString => flush cur
  | String c s' =>
      if Ascii.is_space c then flush cur ++ tokenize_go "" s'
      else if is_punct c then flush cur ++ [String c ""] ++ tokenize_go "" s'
      else tokenize_go (String c cur) s'
  end.

Definition nltk_like_tokenizer : Tokenizer := {| word_tokenize := tokenize_go "" |}.

End TestDoubles.

(** ** Lemmas *)

Lemma is_lower_cons c s : is_lower (String c s) <-> lower_char c = c /\ is_lower s.
Proof. unfold is_lower. simpl. split; [intros [= -> ->]|intros [-> ->]]; done. Qed.

Section ExpansionLemmas.
Context `{WN : WordNet} `{TK : Tokenizer}.

Lemma elem_of_get_synonyms x w :
  x ∈ get_synonyms w <->
  exists syn lem, syn ∈ synsets w /\ lem ∈ lemmas syn /\ x = lower (lemma_name lem).
Proof.
  unfold get_synonyms. rewrite elem_of_list_to_set, list_elem_of_bind.
  setoid_rewrite list_elem_of_bind. setoid_rewrite list_elem_of_singleton. naive_solver.
Qed.

Lemma elem_of_query_terms x q :
  x ∈ query_terms q <->
  x ∈ query_words q \/ exists t, t ∈ query_words q /\ x ∈ get_synonyms t.
Proof.
  unfold query_terms. rewrite elem_of_union, elem_of_union_list, elem_of_list_to_set.
  setoid_rewrite list_elem_of_fmap. naive_solver.
Qed.

Lemma get_synonyms_all_lower w : set_Forall is_lower (get_synonyms w).
Proof.
  intros x (syn & lem & _ & _ & ->)%elem_of_get_synonyms. apply lower_is_lower.
Qed.

Lemma get_synonyms_size_le w :
  size (get_synonyms w) <= sum_list ((fun syn => length (lemmas syn)) <$> synsets w).
Proof.
  unfold get_synonyms. etrans; [apply size_list_to_set_le|].
  rewrite length_list_bind. apply Nat.eq_le_incl. f_equal.
  apply list_fmap_ext. intros _ syn _. by rewrite length_list_bind, sum_list_ones.
Qed.

End ExpansionLemmas.

Module TestDoublesLemmas.
Import TestDoubles.

Lemma is_lower_rev_app a b : is_lower a -> is_lower b -> is_lower (String.rev_app a b).
Proof.
  revert b. induction a as [|c a IH]; intros b Ha Hb; simpl; [done|].
  apply is_lower_cons in Ha as [Hc Ha]. apply IH; [done|]. by apply is_lower_cons.
Qed.

Lemma flush_lower cur : is_lower cur -> Forall is_lower (flush cur).
Proof.
  intros H. destruct cur; simpl; [done|]. constructor; [|done].
  apply is_lower_rev_app; [done|reflexivity].
Qed.

Lemma tokenize_go_lower cur s :
  is_lower cur -> is_lower s -> Forall is_lower (tokenize_go cur s).
Proof.
  revert cur. induction s as [|c s IH]; intros cur Hcur Hs; simpl; [by apply flush_lower|].
  apply is_lower_cons in Hs as [Hc Hs].
  destruct (Ascii.is_space c).
  - apply Forall_app. split; [by apply flush_lower|]. apply IH; [reflexivity|done].
  - destruct (is_punct c).
    + apply Forall_app. split; [by apply flush_lower|].
      constructor; [by apply is_lower_cons|apply IH; [reflexivity|done]].
    + apply IH; [by apply is_lower_cons|done].
Qed.

Lemma tokenize_go_blank s : is_blank s = true -> tokenize_go "" s = [].
Proof.
  unfold is_blank. induction s as [|c s IH]; simpl; [done|].
  rewrite andb_true_iff. intros [-> Hs]. by rewrite IH.
Qed.

#[export] Instance nltk_like_tokenizer_laws : @TokenizerLaws nltk_like_tokenizer.
Proof.
  split.
  - intros s Hs. apply tokenize_go_lower; [reflexivity|done].
  - apply tokenize_go_blank.
Qed.

End TestDoublesLemmas.

Lemma is_blank_lower s : is_blank s = true -> is_blank (lower s) = true.
Proof.
  unfold is_blank. induction s as [|c s IH]; simpl; [done|].
  rewrite !andb_true_iff. intros [Hc Hs]. split; [|by apply IH].
  by destruct c as [[] [] [] [] [] [] [] []].
Qed.

Lemma query_terms_of_blank `{WN : WordNet} `{TK : Tokenizer} `{!TokenizerLaws} q :
  is_blank q = true -> query_terms q = ∅.
Proof.
  intros Hq. unfold query_terms, query_words.
  rewrite (word_tokenize_blank _ (is_blank_lower q Hq)). set_solver.
Qed.

(** ** Theorems *)

Section ExpansionTheorems.
Context `{WN : WordNet} `{TK : Tokenizer}.

(** C7: [get_synonyms word] is exactly the set of the lowercased names of the
    lemmas of the synsets of [word]. *)
Theorem get_synonyms_spec x w :
  x ∈ get_synonyms w <->
  exists syn lem, syn ∈ synsets w /\ lem ∈ lemmas syn /\ x = lower (lemma_name lem).
Proof. apply elem_of_get_synonyms. Qed.

(** [get_synonyms word] is empty exactly when no synset of [word] has a
    lemma; in particular a word unknown to WordNet has no synonyms. *)
Theorem get_synonyms_empty_iff w :
  get_synonyms w = ∅ <-> Forall (fun syn => lemmas syn = []) (synsets w).
Proof.
  rewrite Forall_forall. split.
  - intros H syn Hsyn. destruct (lemmas syn) as [|lem ls] eqn:E; [done|].
    assert (lower (lemma_name lem) ∈ get_synonyms w) as Hin.
    { apply elem_of_get_synonyms. exists syn, lem. rewrite E. split_and!; [done| |done].
      apply elem_of_cons. by left. }
    rewrite H in Hin. by apply not_elem_of_empty in Hin.
  - intros H. apply set_eq. intros x. rewrite elem_of_get_synonyms. split; [|set_solver].
    intros (syn & lem & Hsyn & Hlem & _). rewrite (H syn Hsyn) in Hlem.
    by apply not_elem_of_nil in Hlem.
Qed.

(** Every synonym is lowercase. *)
Theorem get_synonyms_lower w : set_Forall is_lower (get_synonyms w).
Proof. apply get_synonyms_all_lower. Qed.

(** C6: the term set of a query holds its tokens and the synonyms of its
    tokens, and nothing else; in particular expansion never loses a token. *)
Theorem query_terms_spec x q :
  x ∈ query_terms q <->
  x ∈ query_words q \/ exists t, t ∈ query_words q /\ x ∈ get_synonyms t.
Proof. apply elem_of_query_terms. Qed.

(** C36: with a tokenizer that keeps lowercase text lowercase, every term of
    a query's term set is lowercase. *)
Theorem query_terms_lower `{!TokenizerLaws} q : set_Forall is_lower (query_terms q).
Proof.
  intros x [Hx|(t & _ & Hx)]%elem_of_query_terms.
  - unfold query_words in Hx.
    pose proof (word_tokenize_lower (lower q) (lower_is_lower q)) as Hall.
    rewrite Forall_forall in Hall. by apply Hall.
  - revert Hx. apply get_synonyms_all_lower.
Qed.

(** An empty or whitespace-only query has an empty term set. *)
Theorem query_terms_blank `{!TokenizerLaws} q :
  is_blank q = true -> query_terms q = ∅.
Proof. apply query_terms_of_blank. Qed.

(** C26: the term set of a query has at most one term per token plus the
    lemmas of the token's synsets, so the number of substring tests per
    record is bounded by the size of the query and of WordNet's entries. *)
Theorem query_terms_size q :
  size (query_terms q) <=
  sum_list ((fun t => S (sum_list ((fun syn => length (lemmas syn)) <$> synsets t)))
              <$> query_words q).
Proof.
  unfold query_terms. etrans; [apply size_union_le|].
  etrans; [apply Nat.add_le_mono; [apply size_union_list_le|apply size_list_to_set_le]|].
  rewrite <- list_fmap_compose. apply sum_list_fmap_succ_le. intros t. apply get_synonyms_size_le.
Qed.

End ExpansionTheorems.

(** ** Witnesses *)

Module ExpanderWitnesses.
Import TestDoubles TestDoublesLemmas.

Lemma query_terms_lower_witness :
  set_Forall is_lower
    (@query_terms small_wordnet nltk_like_tokenizer "Funny, SCARY movie!").
Proof. apply (@query_terms_lower small_wordnet nltk_like_tokenizer _). Defined.

Lemma query_terms_blank_witness :
  is_blank " 	 " = true /\ @query_terms small_wordnet nltk_like_tokenizer " 	 " = ∅.
Proof.
  split; [reflexivity|]. apply (@query_terms_blank small_wordnet nltk_like_tokenizer _).
  reflexivity.
Defined.

End ExpanderWitnesses.

End Expander.
