(* ===== verification/Matcher.v ===== *)
(** The two matchers over the catalog: the list comprehension of [chatbot]
    (main.py 87) and the one of [get_movies_by_category] (main.py 100).

    Both evaluate [m['category'].lower()], which raises [AttributeError]
    when the category is not a string ([py_lower_cell]).  In [chatbot] that
    call sits inside the generator of [any], once per term: with no term it
    is never evaluated.  The set [synonyms] is iterated in whatever order
    CPython's hash table gives.  The model iterates [elements] of the
    [gset], and [chatbot_results_order_independent] shows that every
    order gives the same result.

    The abstract specification [matches_terms] states the contract of
    [chatbot]'s filter: the category is a string whose lowercase form
    contains a term.  [matches_category] states that of
    [get_movies_by_category].  The refinement theorems show that on a
    well-formed catalog both filters return the catalog's records that
    satisfy the specification, in catalog order. *)

From S2P Require Import Prelude PyStr Catalog.

Open Scope stdpp_scope.

Module Matcher.
Import Catalog.

(** [m['category'].lower()] *)
Definition py_lower_cell (c : cell) : result string :=
  match c with
  | CStr s => Ok (lower s)
  | CInt _ => Raise (AttributeError "int" "lower")
  end.

(** [any(s in m['category'].lower() for s in terms)], the terms iterated in
    the order of the list. *)
Definition term_matches (terms : list string) (m : movie) : result bool :=
  py_any (fun s => c <- py_lower_cell (category m) ;; Ok (contains s c)) terms.

(** The condition of main.py 87, over the set [synonyms]. *)
Definition chatbot_cond (synonyms : gset string) (m : movie) : result bool :=
  term_matches (elements synonyms) m.

(** [[m for m in movies_list if any(s in m['category'].lower() for s in synonyms)]] *)
Definition chatbot_results (movies_list : list movie) (synonyms : gset string)
    : result (list movie) :=
  py_filter (chatbot_cond synonyms) movies_list.

(** [category.lower() in m['category'].lower()] *)
Definition category_cond (cat : string) (m : movie) : result bool :=
  c <- py_lower_cell (category m) ;; Ok (contains (lower cat) c).

(** [[m for m in movies_list if category.lower() in m['category'].lower()]] *)
Definition category_results (movies_list : list movie) (cat : string)
    : result (list movie) :=
  py_filter (category_cond cat) movies_list.

(** ** Abstract specification *)

(** [n] occurs in [h]. *)
Definition occurs (n h : string) : Prop := exists a b, h = a +:+ n +:+ b.

(** The record's category is a string and its lowercase form contains a
    term. *)
Definition matches_terms (terms : gset string) (m : movie) : Prop :=
  exists cat, category m = CStr cat /\ exists s, s ∈ terms /\ occurs s (lower cat).

(** The record's category is a string and its lowercase form contains the
    lowercase argument. *)
Definition matches_category (arg : string) (m : movie) : Prop :=
  exists cat, category m = CStr cat /\ occurs (lower arg) (lower cat).

#[export] Instance occurs_dec n h : Decision (occurs n h).
Proof.
  destruct (contains n h) eqn:E; [left|right]; unfold occurs.
  - by apply contains_spec.
  - rewrite <- contains_spec, E. done.
Defined.

#[export] Instance matches_terms_dec terms m : Decision (matches_terms terms m).
Proof.
  unfold matches_terms. destruct (category m) as [cat|z].
  - destruct (decide (set_Exists (fun s => occurs s (lower cat)) terms)) as [H|H];
      [left|right]; unfold set_Exists in *; naive_solver.
  - right. by intros (? & ? & _).
Defined.

#[export] Instance matches_category_dec arg m : Decision (matches_category arg m).
Proof.
  unfold matches_category. destruct (category m) as [cat|z].
  - destruct (decide (occurs (lower arg) (lower cat))); [left|right]; naive_solver.
  - right. by intros (? & ? & _).
Defined.

(** ** Lemmas *)

Lemma py_lower_cell_wf m : wf_movie m -> exists cat, py_lower_cell (category m) = Ok (lower cat)
                                               /\ category m = CStr cat.
Proof. intros [cat Hc]. exists cat. by rewrite Hc. Qed.

(** On a string category, the condition is the boolean test of the
    specification. *)
Lemma chatbot_cond_wf S m :
  wf_movie m -> chatbot_cond S m = Ok (bool_decide (matches_terms S m)).
Proof.
  intros [cat Hc]. unfold chatbot_cond, term_matches. rewrite Hc. simpl.
  rewrite (py_any_pure (fun s => contains s (lower cat))).
  f_equal. apply eq_bool_prop_intro. rewrite Is_true_true, bool_decide_spec.
  rewrite existsb_exists. unfold matches_terms. rewrite Hc. split.
  - intros (s & Hs & Hcon). exists cat. split; [done|]. exists s.
    split; [by apply elem_of_elements, list_elem_of_In|by apply contains_spec].
  - intros (cat' & [= <-] & s & Hs & Hocc). exists s.
    split; [by apply list_elem_of_In, elem_of_elements|by apply contains_spec].
Qed.

Lemma category_cond_wf arg m :
  wf_movie m -> category_cond arg m = Ok (bool_decide (matches_category arg m)).
Proof.
  intros [cat Hc]. unfold category_cond. rewrite Hc. simpl. f_equal.
  apply eq_bool_prop_intro. rewrite Is_true_true, bool_decide_spec.
  unfold matches_category. rewrite Hc, contains_spec. unfold occurs. naive_solver.
Qed.

(** A comprehension whose condition is a decidable predicate on every
    element of a well-formed catalog is stdpp's [filter]. *)
Lemma py_filter_wf (f : movie -> result bool) (P : movie -> Prop)
    `{!forall m, Decision (P m)} ms :
  (forall m, wf_movie m -> f m = Ok (bool_decide (P m))) ->
  wf_catalog ms -> py_filter f ms = Ok (filter P ms).
Proof.
  intros Hf Hwf. rewrite list_filter_bool_decide, <- py_filter_pure.
  apply py_filter_ext. intros m Hm. apply Hf.
  unfold wf_catalog in Hwf. rewrite Forall_forall in Hwf. by apply Hwf.
Qed.

Lemma term_matches_CInt terms m z :
  category m = CInt z ->
  term_matches terms m = match terms with [] => Ok false | _ => Raise (AttributeError "int" "lower") end.
Proof. intros Hc. unfold term_matches. rewrite Hc. by destruct terms. Qed.

Lemma term_matches_CStr terms m cat :
  category m = CStr cat ->
  term_matches terms m = Ok (List.existsb (fun s => contains s (lower cat)) terms).
Proof. intros Hc. unfold term_matches. rewrite Hc. apply py_any_pure. Qed.
(** The condition of [chatbot] raises exactly on a non-string category
    with a non-empty term set. *)
Lemma chatbot_cond_Raise S m e :
  chatbot_cond S m = Raise e <->
  e = AttributeError "int" "lower" /\ S ≠ ∅ /\ exists z, category m = CInt z.
Proof.
  unfold chatbot_cond. destruct (category m) as [cat|z] eqn:Hc.
  - rewrite (term_matches_CStr _ _ cat Hc). split; [done|]. intros (_ & _ & z & ?). done.
  - rewrite (term_matches_CInt _ _ z Hc).
    destruct (elements S) as [|x xs] eqn:He.
    + apply elements_empty_iff in He. split; [done|]. intros (_ & HS & _). exfalso. by apply HS, leibniz_equiv.
    + split.
      * intros [= <-]. split_and!; [done| |by exists z].
        intros ->. by rewrite elements_empty in He.
      * intros (-> & _). done.
Qed.

Lemma chatbot_cond_Ok_or_Raise S m :
  (exists b, chatbot_cond S m = Ok b) \/ chatbot_cond S m = Raise (AttributeError "int" "lower").
Proof.
  destruct (chatbot_cond S m) as [b|e] eqn:E; [left; by exists b|right].
  by apply chatbot_cond_Raise in E as [-> _].
Qed.

Lemma category_cond_Raise arg m e :
  category_cond arg m = Raise e <->
  e = AttributeError "int" "lower" /\ exists z, category m = CInt z.
Proof.
  unfold category_cond. destruct (category m) as [cat|z]; simpl.
  - split; [done|]. intros (_ & z & ?). done.
  - split; [intros [= <-]; split; [done|by exists z]|by intros [-> _]].
Qed.

Lemma category_cond_Ok_or_Raise arg m :
  (exists b, category_cond arg m = Ok b) \/ category_cond arg m = Raise (AttributeError "int" "lower").
Proof.
  destruct (category_cond arg m) as [b|e] eqn:E; [left; by exists b|right].
  by apply category_cond_Raise in E as [-> _].
Qed.

(** A catalog on which the comprehension of [chatbot] does not raise with a
    non-empty term set is well formed. *)
Lemma chatbot_results_Ok_wf ms S r :
  S ≠ ∅ -> chatbot_results ms S = Ok r -> wf_catalog ms.
Proof.
  intros HS Hr. apply Forall_forall. intros m Hm.
  unfold wf_movie. destruct (category m) as [cat|z] eqn:Hc; [by exists cat|exfalso].
  assert (chatbot_results ms S = Raise (AttributeError "int" "lower")) as Hraise.
  { apply (py_filter_Raise_intro _ _ _ m); [intros y _; apply chatbot_cond_Ok_or_Raise|done|].
    apply chatbot_cond_Raise. split_and!; [done|done|by exists z]. }
  congruence.
Qed.

Lemma wf_catalog_sublist ms r : r `sublist_of` ms -> wf_catalog ms -> wf_catalog r.
Proof.
  unfold wf_catalog. rewrite !Forall_forall. intros Hsub Hwf m Hm.
  apply Hwf. by eapply elem_of_sublist.
Qed.

Lemma chatbot_results_empty_set ms : chatbot_results ms ∅ = Ok [].
Proof.
  unfold chatbot_results, chatbot_cond. rewrite elements_empty.
  induction ms as [|m ms IH]; simpl; [done|]. by rewrite IH.
Qed.

(** ** Theorems *)

(** C1: refinement of [chatbot]'s filter (main.py 87).  On a well-formed
    catalog it returns the records that satisfy the specification
    [matches_terms], in catalog order. *)
Theorem chatbot_results_refines ms S :
  wf_catalog ms -> chatbot_results ms S = Ok (filter (matches_terms S) ms).
Proof. intros Hwf. apply py_filter_wf; [apply chatbot_cond_wf|done]. Qed.

(** C2: refinement of [get_movies_by_category]'s filter (main.py 100).  On a
    well-formed catalog it returns the records whose lowercased category
    contains the lowercased argument, in catalog order. *)
Theorem category_results_refines ms arg :
  wf_catalog ms -> category_results ms arg = Ok (filter (matches_category arg) ms).
Proof. intros Hwf. apply py_filter_wf; [apply category_cond_wf|done]. Qed.

(** C9: [chatbot]'s filter raises exactly when the term set is non-empty and
    some record's category is not a string.  The exception is then the
    [AttributeError] of [int.lower]. *)
Theorem chatbot_results_Raise ms S e :
  chatbot_results ms S = Raise e <->
  e = AttributeError "int" "lower" /\ S ≠ ∅ /\ exists m z, m ∈ ms /\ category m = CInt z.
Proof.
  split.
  - intros (m & Hm & Hraise)%py_filter_Raise_inv.
    apply chatbot_cond_Raise in Hraise as (-> & HS & z & Hz).
    split_and!; [done|done|by exists m, z].
  - intros (-> & HS & m & z & Hm & Hz).
    apply (py_filter_Raise_intro _ _ _ m); [intros y _; apply chatbot_cond_Ok_or_Raise|done|].
    apply chatbot_cond_Raise. split_and!; [done|done|by exists z].
Qed.

(** [get_movies_by_category]'s filter raises exactly when some record's
    category is not a string, whatever the argument. *)
Theorem category_results_Raise ms arg e :
  category_results ms arg = Raise e <->
  e = AttributeError "int" "lower" /\ exists m z, m ∈ ms /\ category m = CInt z.
Proof.
  split.
  - intros (m & Hm & Hraise)%py_filter_Raise_inv.
    apply category_cond_Raise in Hraise as (-> & z & Hz). split; [done|by exists m, z].
  - intros (-> & m & z & Hm & Hz).
    apply (py_filter_Raise_intro _ _ _ m); [intros y _; apply category_cond_Ok_or_Raise|done|].
    apply category_cond_Raise. split; [done|by exists z].
Qed.

(** C27: with an empty term set [chatbot]'s filter returns no record.  This
    holds on every catalog, because [m['category'].lower()] is never
    evaluated. *)
Theorem chatbot_results_no_terms ms : chatbot_results ms ∅ = Ok [].
Proof. apply chatbot_results_empty_set. Qed.

(** C28: an empty category argument matches every record of a well-formed
    catalog, in order.  This is the quirk the spec documents. *)
Theorem category_results_empty ms : wf_catalog ms -> category_results ms "" = Ok ms.
Proof.
  intros Hwf. unfold category_results.
  rewrite (py_filter_ext _ (fun _ => Ok true)); [by rewrite py_filter_pure, filter_true_all|].
  intros m Hm. unfold wf_catalog in Hwf. rewrite Forall_forall in Hwf.
  destruct (Hwf m Hm) as [cat Hc]. unfold category_cond. rewrite Hc. simpl.
  by rewrite contains_empty.
Qed.

(** C29: [get_movies_by_category]'s filter is [chatbot]'s filter with the
    one-term set of the lowercased argument, on every catalog, errors
    included. *)
Theorem category_results_as_terms ms arg :
  category_results ms arg = chatbot_results ms {[lower arg]}.
Proof.
  apply py_filter_ext. intros m _.
  unfold chatbot_cond, term_matches. rewrite elements_singleton. simpl.
  unfold category_cond. destruct (py_lower_cell (category m)); simpl; [|done].
  by destruct (contains (lower arg) a).
Qed.

(** [chatbot]'s filter is a pure filter.  Its result is a sublist of
    the catalog in catalog order, and filtering that result again returns
    it unchanged. *)
Theorem chatbot_results_idempotent ms S r :
  chatbot_results ms S = Ok r -> r `sublist_of` ms /\ chatbot_results r S = Ok r.
Proof.
  intros Hr. split; [by eapply py_filter_sublist|].
  destruct (decide (S = ∅)) as [->|HS].
  - rewrite chatbot_results_empty_set in Hr. injection Hr as <-. reflexivity.
  - pose proof (chatbot_results_Ok_wf ms S r HS Hr) as Hwf.
    unfold chatbot_results in Hr |- *.
    rewrite (py_filter_wf _ (matches_terms S)) in Hr; [|apply chatbot_cond_wf|done].
    injection Hr as <-.
    rewrite (py_filter_wf _ (matches_terms S)); [|apply chatbot_cond_wf|].
    + by rewrite list_filter_filter, (list_filter_iff _ (matches_terms S)) by naive_solver.
    + eapply wf_catalog_sublist; [apply sublist_filter|done].
Qed.

(** C25: on a well-formed catalog, adding terms to the set only adds
    records to [chatbot]'s result: the result for fewer terms is a sublist
    of the result for more. *)
Theorem chatbot_results_mono ms S T :
  wf_catalog ms -> S ⊆ T ->
  exists r1 r2, chatbot_results ms S = Ok r1 /\ chatbot_results ms T = Ok r2 /\
                r1 `sublist_of` r2.
Proof.
  intros Hwf HST. unfold chatbot_results.
  rewrite (py_filter_wf _ (matches_terms S)), (py_filter_wf _ (matches_terms T));
    try done; try apply chatbot_cond_wf.
  eexists _, _. split_and!; [done|done|]. apply filter_sublist_mono.
  intros m (cat & Hc & s & Hs & Hocc). exists cat. split; [done|]. exists s. split; [set_solver|done].
Qed.

(** Every iteration order of the terms gives the same answer. *)
Lemma term_matches_perm_aux l1 l2 m : l1 ≡ₚ l2 -> term_matches l1 m = term_matches l2 m.
Proof.
  intros Hp. destruct (category m) as [cat|z] eqn:Hc.
  - rewrite !(term_matches_CStr _ _ cat Hc). f_equal. by apply existsb_perm.
  - rewrite !(term_matches_CInt _ _ z Hc).
    destruct l1, l2; try done;
      [apply Permutation_nil_cons in Hp|symmetry in Hp; apply Permutation_nil_cons in Hp]; done.
Qed.

#[export] Instance term_matches_proper : Proper ((≡ₚ) ==> (=) ==> (=)) term_matches.
Proof. intros l1 l2 Hp m ? <-. by apply term_matches_perm_aux. Qed.

(** C8: the comprehension of [chatbot] does not depend on the order in which
    the set [synonyms] is iterated: every permutation of its elements gives
    the same result. *)
Theorem chatbot_results_order_independent ms S l :
  l ≡ₚ elements S -> py_filter (term_matches l) ms = chatbot_results ms S.
Proof.
  intros Hl. unfold chatbot_results, chatbot_cond. apply py_filter_ext. intros m _.
  by rewrite Hl.
Qed.

(** ** Witnesses *)

Lemma chatbot_results_refines_witness :
  wf_catalog spec_catalog /\
  chatbot_results spec_catalog {["comedy"]} = Ok (filter (matches_terms {["comedy"]}) spec_catalog).
Proof.
  assert (wf_catalog spec_catalog) as Hwf by decide_by_eval.
  split; [exact Hwf|]. apply (chatbot_results_refines spec_catalog {["comedy"]} Hwf).
Defined.

Lemma category_results_refines_witness :
  wf_catalog spec_catalog /\
  category_results spec_catalog "DRAMA" = Ok (filter (matches_category "DRAMA") spec_catalog).
Proof.
  assert (wf_catalog spec_catalog) as Hwf by decide_by_eval.
  split; [exact Hwf|]. apply (category_results_refines spec_catalog "DRAMA" Hwf).
Defined.

Lemma category_results_empty_witness :
  wf_catalog spec_catalog /\ category_results spec_catalog "" = Ok spec_catalog.
Proof.
  assert (wf_catalog spec_catalog) as Hwf by decide_by_eval.
  split; [exact Hwf|]. apply (category_results_empty spec_catalog Hwf).
Defined.

Lemma chatbot_results_order_independent_witness :
  ["drama"; "comedy"] ≡ₚ elements ({["comedy"; "drama"]} : gset string) /\
  py_filter (term_matches ["drama"; "comedy"]) spec_catalog =
    chatbot_results spec_catalog {["comedy"; "drama"]}.
Proof.
  assert (["drama"; "comedy"] ≡ₚ elements ({["comedy"; "drama"]} : gset string)) as Hp
    by (vm_compute; apply perm_swap).
  split; [exact Hp|]. apply (chatbot_results_order_independent _ _ _ Hp).
Defined.

Lemma chatbot_results_idempotent_witness :
  chatbot_results spec_catalog {["comedy"]} = Ok [movie_of "1" "Action, Comedy"] /\
  [movie_of "1" "Action, Comedy"] `sublist_of` spec_catalog /\
  chatbot_results [movie_of "1" "Action, Comedy"] {["comedy"]} = Ok [movie_of "1" "Action, Comedy"].
Proof.
  assert (chatbot_results spec_catalog {["comedy"]} = Ok [movie_of "1" "Action, Comedy"]) as H
    by (vm_compute; reflexivity).
  split; [exact H|]. apply (chatbot_results_idempotent _ _ _ H).
Defined.

Lemma chatbot_results_mono_witness :
  wf_catalog spec_catalog /\ ({["comedy"]} : gset string) ⊆ {["comedy"; "drama"]} /\
  exists r1 r2, chatbot_results spec_catalog {["comedy"]} = Ok r1 /\
    chatbot_results spec_catalog {["comedy"; "drama"]} = Ok r2 /\ r1 `sublist_of` r2.
Proof.
  assert (wf_catalog spec_catalog) as Hwf by decide_by_eval.
  assert (({["comedy"]} : gset string) ⊆ {["comedy"; "drama"]}) as HS by decide_by_eval.
  split_and!; [exact Hwf|exact HS|]. apply (chatbot_results_mono _ _ _ Hwf HS).
Defined.

End Matcher.
