(* ===== verification/Service.v ===== *)
(** The HTTP handlers of main.py (56-100) over an explicit [movies_list].

    A handler either returns a Python value or raises.  The values it
    returns are those of [pyret]: an HTML response, a list of movie dicts,
    one movie dict, the dict [{"detalle": ...}], an [HTTPException] object
    (returned, not raised, by [get_movies]) or a [JSONResponse] with the
    two keys of [chatbot].  FastAPI sends a returned value with status
    200.  That holds for an exception object too: [jsonable_encoder] falls
    back to [vars(obj)].  A raised non-HTTP exception gives status 500.
    [status_of] states this.  It is FastAPI's behaviour, not code of
    main.py.

    The handlers are stateless.  Each is a function of the catalog loaded
    at start-up ([movies_list = load_movies()]) and of its own argument. *)

From S2P Require Import Prelude PyStr Catalog Expander Matcher.

Open Scope stdpp_scope.

Module Service.
Import Catalog Matcher Expander.

Inductive pyret : Type :=
| RHTML (html : string)
| RMovies (ms : list movie)
| RMovie (m : movie)
| RDetail (detalle : string)
| RHTTPException (status_code : Z) (detail : string)
| RJSON (respuesta : string) (peliculas : list movie).

(** [movies_list = load_movies()], run once at import: the service starts
    only if it succeeds. *)
Definition startup (t : table) : result (list movie) := load_movies t.

(** [home()] *)
Definition home : result pyret :=
  Ok (RHTML "<h1>Bienvenido a la API de películas</h1>").

(** [get_movies()]: [movies_list or HTTPException(...)]. *)
Definition get_movies (movies_list : list movie) : result pyret :=
  Ok (match movies_list with
      | [] => RHTTPException 500 "No hay datos de películas disponibles"
      | _ => RMovies movies_list
      end).

(** [m['id'] == id] with [id : str]: a non-string cell is never equal. *)
Definition py_eq_str (c : cell) (s : string) : bool :=
  match c with
  | CStr s' => bool_decide (s' = s)
  | CInt _ => false
  end.

Definition not_found : pyret := RDetail "película no encontrada".

(** [get_movie(id)]:
    [next((m for m in movies_list if m['id'] == id), {"detalle": ...})]. *)
Definition get_movie (movies_list : list movie) (id : string) : result pyret :=
  Ok (match List.find (fun m => py_eq_str (mid m) id) movies_list with
      | Some m => RMovie m
      | None => not_found
      end).

Definition found_msg : string := "Aquí tienes algunas películas relacionadas.".
Definition empty_msg : string := "No encontré películas en esa categoría".

Section WithNLTK.
Context `{WN : WordNet} `{TK : Tokenizer}.

(** [chatbot(query)] *)
Definition chatbot (movies_list : list movie) (query : string) : result pyret :=
  let synonyms := query_terms query in
  results <- chatbot_results movies_list synonyms ;;
  Ok (RJSON (match results with [] => empty_msg | _ => found_msg end) results).

End WithNLTK.

(** [get_movies_by_category(category)] *)
Definition get_movies_by_category (movies_list : list movie) (category : string)
    : result pyret :=
  results <- category_results movies_list category ;; Ok (RMovies results).

(** The status code of the response FastAPI sends. *)
Definition status_of (r : result pyret) : Z :=
  match r with
  | Ok _ => 200%Z
  | Raise _ => 500%Z
  end.

(** ** Lemmas *)

Lemma py_eq_str_true c s : py_eq_str c s = true <-> c = CStr s.
Proof.
  destruct c as [s'|z]; simpl; [|done].
  rewrite bool_decide_eq_true. split; congruence.
Qed.

Lemma find_py_eq_str_None ms id :
  List.find (fun m => py_eq_str (mid m) id) ms = None <-> Forall (fun m => mid m <> CStr id) ms.
Proof.
  induction ms as [|m ms IH]; simpl; [split; [constructor|done]|].
  rewrite Forall_cons. destruct (py_eq_str (mid m) id) eqn:E.
  - apply py_eq_str_true in E. split; [done|]. by intros [? _].
  - rewrite IH. split; [intros H; split; [|done]|by intros [_ ?]].
    intros Heq. apply py_eq_str_true in Heq. congruence.
Qed.

Lemma get_movie_Ok ms id :
  get_movie ms id = Ok (match List.find (fun m => py_eq_str (mid m) id) ms with
                        | Some m => RMovie m | None => not_found end).
Proof. reflexivity. Qed.

Lemma get_movie_Some_iff ms id m :
  get_movie ms id = Ok (RMovie m) <->
  exists l1 l2, ms = l1 ++ m :: l2 /\ mid m = CStr id /\ Forall (fun m' => mid m' <> CStr id) l1.
Proof.
  rewrite get_movie_Ok. split.
  - destruct (List.find _ ms) as [m'|] eqn:E; [intros [= <-]|done].
    apply find_Some_first in E as (l1 & l2 & -> & Hm & Hl1).
    exists l1, l2. split_and!; [done|by apply py_eq_str_true|].
    eapply Forall_impl; [exact Hl1|]. intros y Hy Heq. apply py_eq_str_true in Heq. congruence.
  - intros (l1 & l2 & -> & Hm & Hl1). rewrite find_app_first; [done|by apply py_eq_str_true|].
    eapply Forall_impl; [exact Hl1|]. intros y Hy. apply not_true_is_false.
    by rewrite py_eq_str_true.
Qed.

Lemma get_movie_None_iff ms id :
  get_movie ms id = Ok not_found <-> Forall (fun m => mid m <> CStr id) ms.
Proof.
  rewrite get_movie_Ok, <- find_py_eq_str_None.
  destruct (List.find _ ms); [split; [done|congruence]|done].
Qed.

Section ChatbotLemmas.
Context `{WN : WordNet} `{TK : Tokenizer}.

Lemma chatbot_Ok_inv ms q v :
  chatbot ms q = Ok v ->
  exists r, chatbot_results ms (query_terms q) = Ok r /\
            v = RJSON (match r with [] => empty_msg | _ => found_msg end) r.
Proof.
  unfold chatbot. destruct (chatbot_results _ _) as [r|e]; simpl; [|done].
  intros [= <-]. by exists r.
Qed.

Lemma chatbot_wf ms q :
  wf_catalog ms ->
  chatbot ms q = Ok (RJSON (match filter (matches_terms (query_terms q)) ms with
                            | [] => empty_msg | _ => found_msg end)
                           (filter (matches_terms (query_terms q)) ms)).
Proof.
  intros Hwf. unfold chatbot, chatbot_results. simpl.
  rewrite (py_filter_wf _ (matches_terms (query_terms q))); [done|apply chatbot_cond_wf|done].
Qed.

End ChatbotLemmas.

(** ** Theorems *)

(** C10: [get_movie] returns a record exactly when it is the first record of
    the catalog whose id is the string [id]. *)
Theorem get_movie_found ms id m :
  get_movie ms id = Ok (RMovie m) <->
  exists l1 l2, ms = l1 ++ m :: l2 /\ mid m = CStr id /\ Forall (fun m' => mid m' <> CStr id) l1.
Proof. apply get_movie_Some_iff. Qed.

(** C11: [get_movie] never raises.  It returns the not-found payload exactly
    when no record has the id. *)
Theorem get_movie_not_found ms id :
  (forall e, get_movie ms id <> Raise e) /\
  (get_movie ms id = Ok not_found <-> Forall (fun m => mid m <> CStr id) ms).
Proof. split; [intros e; by rewrite get_movie_Ok|apply get_movie_None_iff]. Qed.

(** C40: in a catalog with unique ids, [get_movie] returns the record with
    the requested id. *)
Theorem get_movie_unique ms id m :
  NoDup (mid <$> ms) -> m ∈ ms -> mid m = CStr id -> get_movie ms id = Ok (RMovie m).
Proof.
  intros Hnd Hm Hid. apply get_movie_Some_iff.
  apply list_elem_of_split in Hm as (l1 & l2 & ->).
  exists l1, l2. split_and!; [done|done|].
  apply Forall_forall. intros m' Hm' Heq.
  rewrite fmap_app, fmap_cons, Hid in Hnd. rewrite <- Heq in Hnd.
  apply NoDup_app in Hnd as (_ & Hdisj & _).
  apply (Hdisj (mid m')); [by apply list_elem_of_fmap_2|apply elem_of_cons; by left].
Qed.

(** C16: when pandas read the id column as integers, [m['id'] == id] compares
    an [int] with a [str].  Then [get_movie] finds nothing, whatever the
    id. *)
Theorem get_movie_int_ids ms id :
  Forall (fun m => exists z, mid m = CInt z) ms -> get_movie ms id = Ok not_found.
Proof.
  intros H. apply get_movie_None_iff. eapply Forall_impl; [exact H|].
  by intros m [z ->].
Qed.

(** C15: [get_movies] never responds with an error status.  On an empty
    catalog it returns the [HTTPException] object instead of raising it, so
    the response has status 200. *)
Theorem get_movies_status ms :
  status_of (get_movies ms) = 200%Z /\
  get_movies ms = Ok (if decide (ms = []) then
                        RHTTPException 500 "No hay datos de películas disponibles"
                      else RMovies ms).
Proof. split; [done|]. destruct ms; [done|]. case_decide; [done|reflexivity]. Qed.

Section ChatbotTheorems.
Context `{WN : WordNet} `{TK : Tokenizer}.

(** C3: on a well-formed catalog, [chatbot] returns the records whose
    category contains a term of the expanded query, in catalog order.  Its
    message is the found message exactly when that list is non-empty. *)
Theorem chatbot_refines ms q :
  wf_catalog ms ->
  exists r, chatbot ms q = Ok (RJSON (if decide (r = []) then empty_msg else found_msg) r) /\
            r = filter (matches_terms (query_terms q)) ms.
Proof.
  intros Hwf. eexists. split; [|reflexivity]. rewrite chatbot_wf by done.
  by destruct (filter _ ms); case_decide.
Qed.

(** C12: any token of the query that occurs in a record's lowercased
    category selects the record.  NLTK's tokenizer emits punctuation marks
    as tokens, and the categories are comma-separated, so a query that
    contains a comma selects every record with two or more genres. *)
Theorem chatbot_token_selects ms q t m cat :
  wf_catalog ms -> t ∈ query_words q -> m ∈ ms -> category m = CStr cat ->
  contains t (lower cat) = true ->
  exists r, chatbot ms q = Ok (RJSON found_msg r) /\ m ∈ r.
Proof.
  intros Hwf Ht Hm Hc Hcon. rewrite chatbot_wf by done.
  assert (m ∈ filter (matches_terms (query_terms q)) ms) as Hin.
  { apply list_elem_of_filter. split; [|done]. exists cat. split; [done|].
    exists t. split; [apply elem_of_query_terms; by left|by apply contains_spec]. }
  destruct (filter _ ms) as [|m' r] eqn:E; [by apply not_elem_of_nil in Hin|].
  by exists (m' :: r).
Qed.

(** C37: [chatbot]'s message is the found message exactly when it returns at
    least one record. *)
Theorem chatbot_message ms q msg r :
  chatbot ms q = Ok (RJSON msg r) -> (msg = found_msg <-> r <> []).
Proof.
  intros (r' & _ & Hv)%chatbot_Ok_inv. injection Hv as -> ->.
  by destruct r'.
Qed.

(** C38: an empty or whitespace-only query gets no record and the
    not-found message, on every catalog. *)
Theorem chatbot_blank `{!TokenizerLaws} ms q :
  is_blank q = true -> chatbot ms q = Ok (RJSON empty_msg []).
Proof.
  intros Hq. unfold chatbot. simpl. rewrite (query_terms_of_blank q Hq).
  by rewrite chatbot_results_empty_set.
Qed.

(** With NLTK's data present, [chatbot] responds with status 500 exactly
    when the expanded query is non-empty and some record's category is not
    a string.  [Startup.chatbot_app_status] adds the [LookupError] of
    missing NLTK data. *)
Theorem chatbot_status ms q :
  status_of (chatbot ms q) = 500%Z <->
  query_terms q ≠ ∅ /\ exists m z, m ∈ ms /\ category m = CInt z.
Proof.
  unfold chatbot. simpl. destruct (chatbot_results ms (query_terms q)) as [r|e] eqn:E; simpl.
  - split; [done|]. intros (HS & m & z & Hm & Hz).
    assert (chatbot_results ms (query_terms q) = Raise (AttributeError "int" "lower")) as E'.
    { apply (py_filter_Raise_intro _ _ _ m); [intros y _; apply chatbot_cond_Ok_or_Raise|done|].
      apply chatbot_cond_Raise. split_and!; [done|done|by exists z]. }
    congruence.
  - split; [intros _|done].
    apply py_filter_Raise_inv in E as (m & Hm & (_ & HS & z & Hz)%chatbot_cond_Raise).
    split; [done|by exists m, z].
Qed.

End ChatbotTheorems.

(** ** Witnesses: the spec's scenarios *)

Module ServiceWitnesses.
Import Expander.TestDoubles Expander.TestDoublesLemmas.

Lemma get_movie_found_witness :
  get_movie spec_catalog "2" = Ok (RMovie (movie_of "2" "Drama")) /\
  exists l1 l2, spec_catalog = l1 ++ movie_of "2" "Drama" :: l2 /\
    mid (movie_of "2" "Drama") = CStr "2" /\ Forall (fun m' => mid m' <> CStr "2") l1.
Proof.
  assert (get_movie spec_catalog "2" = Ok (RMovie (movie_of "2" "Drama"))) as H by reflexivity.
  split; [exact H|]. by apply get_movie_found.
Defined.

Lemma get_movie_not_found_witness :
  get_movie spec_catalog "9" = Ok not_found /\ Forall (fun m => mid m <> CStr "9") spec_catalog.
Proof.
  assert (get_movie spec_catalog "9" = Ok not_found) as H by reflexivity.
  split; [exact H|]. by apply (proj2 (get_movie_not_found spec_catalog "9")).
Defined.

Lemma get_movie_unique_witness :
  NoDup (mid <$> spec_catalog) /\ movie_of "2" "Drama" ∈ spec_catalog /\
  get_movie spec_catalog "2" = Ok (RMovie (movie_of "2" "Drama")).
Proof.
  assert (NoDup (mid <$> spec_catalog)) as Hnd by decide_by_eval.
  assert (movie_of "2" "Drama" ∈ spec_catalog) as Hm by decide_by_eval.
  split_and!; [exact Hnd|exact Hm|]. apply (get_movie_unique _ _ _ Hnd Hm). reflexivity.
Defined.

Lemma get_movie_int_ids_witness :
  Forall (fun m => exists z, mid m = CInt z) int_id_catalog /\
  get_movie int_id_catalog "2" = Ok not_found.
Proof.
  assert (Forall (fun m => exists z, mid m = CInt z) int_id_catalog) as H.
  { repeat constructor; eexists; reflexivity. }
  split; [exact H|]. apply (get_movie_int_ids _ _ H).
Defined.

Lemma chatbot_refines_witness :
  wf_catalog spec_catalog /\
  exists r, @chatbot small_wordnet nltk_like_tokenizer spec_catalog "funny" =
              Ok (RJSON (if decide (r = []) then empty_msg else found_msg) r) /\
            r = filter (matches_terms (@query_terms small_wordnet nltk_like_tokenizer "funny"))
                  spec_catalog.
Proof.
  assert (wf_catalog spec_catalog) as Hwf by decide_by_eval.
  split; [exact Hwf|]. apply (@chatbot_refines small_wordnet nltk_like_tokenizer _ _ Hwf).
Defined.

(** "funny" expands to "comedy" and selects record 1. *)
Lemma chatbot_funny_scenario :
  @chatbot small_wordnet nltk_like_tokenizer spec_catalog "funny" =
    Ok (RJSON found_msg [movie_of "1" "Action, Comedy"]).
Proof. vm_compute. reflexivity. Qed.

(** A query with no synonym and no literal occurrence gets the not-found
    message. *)
Lemma chatbot_message_witness :
  @chatbot small_wordnet nltk_like_tokenizer spec_catalog "zzzznotaword" =
    Ok (RJSON empty_msg []) /\ (empty_msg = found_msg <-> @nil movie <> []).
Proof.
  assert (@chatbot small_wordnet nltk_like_tokenizer spec_catalog "zzzznotaword" =
            Ok (RJSON empty_msg [])) as H by (vm_compute; reflexivity).
  split; [exact H|]. apply (@chatbot_message small_wordnet nltk_like_tokenizer _ _ _ _ H).
Defined.

(** The comma of "zzzz, qqqq" is a token and occurs in "Action, Comedy". *)
Lemma chatbot_token_selects_witness :
  wf_catalog spec_catalog /\
  "," ∈ @query_words nltk_like_tokenizer "zzzz, qqqq" /\
  exists r, @chatbot small_wordnet nltk_like_tokenizer spec_catalog "zzzz, qqqq" =
              Ok (RJSON found_msg r) /\ movie_of "1" "Action, Comedy" ∈ r.
Proof.
  assert (wf_catalog spec_catalog) as Hwf by decide_by_eval.
  assert ("," ∈ @query_words nltk_like_tokenizer "zzzz, qqqq") as Ht by decide_by_eval.
  split_and!; [exact Hwf|exact Ht|].
  apply (@chatbot_token_selects small_wordnet nltk_like_tokenizer _ _ "," _ "Action, Comedy"
           Hwf Ht); [decide_by_eval|reflexivity|reflexivity].
Defined.

Lemma chatbot_blank_witness :
  is_blank "   " = true /\
  @chatbot small_wordnet nltk_like_tokenizer int_category_catalog "   " = Ok (RJSON empty_msg []).
Proof.
  split; [reflexivity|]. apply (@chatbot_blank small_wordnet nltk_like_tokenizer _). reflexivity.
Defined.

End ServiceWitnesses.

End Service.
