(* ===== verification/Json.v ===== *)
(** The bodies of the responses: the JSON FastAPI sends for the values the
    handlers of main.py return.

    A movie is the dict [to_dict(orient='records')] built (main.py 36-39):
    a JSON object with the six renamed keys, in that order.  A string cell
    becomes a JSON string and an integer cell a JSON number.  [get_movie]'s
    not-found payload is the object [{"detalle": ...}] (main.py 74).
    [chatbot]'s envelope has the keys [respuesta] and [películas] (main.py
    90-93).  The [HTTPException] that [get_movies] returns (main.py 69)
    goes through [jsonable_encoder], which falls back to [vars(exc)]: the
    object [{"status_code": 500, "detail": ..., "headers": null}].  The home
    page is HTML.  An exception raised by a handler gives Starlette's plain
    text "Internal Server Error".

    The [JsonCodec] class is the contract between the service and a
    client: decoding the encoding of a value gives the value back.  The
    instances for cells, movies and lists of movies discharge it.  The
    decoders [decode_get_movie] and [decode_movies] are what a client of
    the API must write.  They are not code of main.py; the theorems use them
    to show what a client can and cannot recover from a body. *)

From S2P Require Import Prelude PyStr Catalog Expander Matcher Service.

Open Scope stdpp_scope.

Module Json.
Import Catalog Service.

#[warnings="-register-all"]
Inductive json : Type :=
| JNull
| JBool (b : bool)
| JNum (z : Z)
| JStr (s : string)
| JArr (xs : list json)
| JObj (kvs : list (string * json)).

Inductive body : Type :=
| BJson (j : json)
| BHtml (html : string)
| BText (text : string).

(** A cell as [json.dumps] writes it. *)
Definition cell_json (c : cell) : json :=
  match c with
  | CStr s => JStr s
  | CInt z => JNum z
  end.

(** A record of [movies_list]: the dict with the renamed keys. *)
Definition movie_json (m : movie) : json :=
  JObj (zip renamed_columns (cell_json <$> fields m)).

Definition movies_json (ms : list movie) : json := JArr (movie_json <$> ms).

(** The JSON of each value a handler returns. *)
Definition body_of (v : pyret) : body :=
  match v with
  | RHTML h => BHtml h
  | RMovies ms => BJson (movies_json ms)
  | RMovie m => BJson (movie_json m)
  | RDetail d => BJson (JObj [("detalle", JStr d)])
  | RHTTPException s d =>
      BJson (JObj [("status_code", JNum s); ("detail", JStr d); ("headers", JNull)])
  | RJSON r ps => BJson (JObj [("respuesta", JStr r); ("películas", movies_json ps)])
  end.

Definition response_body (r : result pyret) : body :=
  match r with
  | Ok v => body_of v
  | Raise _ => BText "Internal Server Error"
  end.

(** ** Decoders *)

Definition obj_get (k : string) (kvs : list (string * json)) : option json :=
  snd <$> List.find (fun kv => bool_decide (kv.1 = k)) kvs.

Definition json_cell (j : json) : option cell :=
  match j with
  | JStr s => Some (CStr s)
  | JNum z => Some (CInt z)
  | _ => None
  end.

Definition field_of (k : string) (kvs : list (string * json)) : option cell :=
  obj_get k kvs ≫= json_cell.

Definition movie_of_json (j : json) : option movie :=
  match j with
  | JObj kvs =>
      i ← field_of "id" kvs; t ← field_of "title" kvs; y ← field_of "year" kvs;
      c ← field_of "category" kvs; r ← field_of "rating" kvs;
      o ← field_of "overview" kvs; Some (mkMovie i t y c r o)
  | _ => None
  end.

Definition movies_of_json (j : json) : option (list movie) :=
  match j with
  | JArr xs => mapM movie_of_json xs
  | _ => None
  end.

(** The contract between the encoder and a client's decoder. *)
Class JsonCodec (A : Type) := {
  to_json : A -> json;
  of_json : json -> option A;
  of_json_to_json x : of_json (to_json x) = Some x
}.

(** A client of [GET /movies/{id}]: [Some (Some m)] for a record,
    [Some None] for the not-found payload, [None] for anything else. *)
Definition decode_get_movie (b : body) : option (option movie) :=
  match b with
  | BJson (JObj kvs) =>
      match obj_get "detalle" kvs with
      | Some _ => Some None
      | None => Some <$> movie_of_json (JObj kvs)
      end
  | _ => None
  end.

(** A client of [GET /movies] or [GET /movies/by_category/]. *)
Definition decode_movies (b : body) : option (list movie) :=
  match b with
  | BJson j => movies_of_json j
  | _ => None
  end.

(** ** Lemmas *)

Lemma json_cell_cell_json c : json_cell (cell_json c) = Some c.
Proof. by destruct c. Qed.

Lemma movie_of_json_movie_json m : movie_of_json (movie_json m) = Some m.
Proof. by destruct m as [[] [] [] [] [] []]. Qed.

Lemma movies_of_json_movies_json ms : movies_of_json (movies_json ms) = Some ms.
Proof.
  simpl. apply mapM_Some_2. apply Forall2_fmap_l, Forall_Forall2_diag, Forall_forall.
  intros m _. apply movie_of_json_movie_json.
Qed.

#[export] Instance cell_codec : JsonCodec cell :=
  {| to_json := cell_json; of_json := json_cell; of_json_to_json := json_cell_cell_json |}.

#[export] Instance movie_codec : JsonCodec movie :=
  {| to_json := movie_json; of_json := movie_of_json;
     of_json_to_json := movie_of_json_movie_json |}.

#[export] Instance movies_codec : JsonCodec (list movie) :=
  {| to_json := movies_json; of_json := movies_of_json;
     of_json_to_json := movies_of_json_movies_json |}.

(** Encoding is injective for every codec. *)
Lemma to_json_inj `{JsonCodec A} x y : to_json x = to_json y -> x = y.
Proof.
  intros Hxy. enough (Some x = Some y) by congruence.
  by rewrite <- !of_json_to_json, Hxy.
Qed.

(** A record's body has no [detalle] key, so it is never read as the
    not-found payload. *)
Lemma decode_get_movie_record m : decode_get_movie (BJson (movie_json m)) = Some (Some m).
Proof. by destruct m as [[] [] [] [] [] []]. Qed.

(** ** Theorems *)

(** C19: the body of a movie list decodes back to the same list, in order:
    no field of a record is lost or changed by the JSON encoding. *)
Theorem movies_json_roundtrip ms : movies_of_json (movies_json ms) = Some ms.
Proof. apply movies_of_json_movies_json. Qed.

(** C17: a client can tell the two shapes of [get_movie]'s body apart.  It
    decodes to the record [get_movie] found, or to "not found" exactly when
    no record has the id. *)
Theorem get_movie_body_decodes ms id :
  decode_get_movie (response_body (get_movie ms id)) =
  Some (List.find (fun m => py_eq_str (mid m) id) ms).
Proof.
  unfold get_movie. destruct (List.find _ ms) as [m|]; [|done].
  apply decode_get_movie_record.
Qed.

(** C18: the body of [GET /movies] decodes to the catalog when it is not
    empty.  For an empty catalog it is the encoded [HTTPException], sent
    with status 200, and it is not a movie list at all. *)
Theorem get_movies_body ms :
  decode_movies (response_body (get_movies ms)) =
  if decide (ms = []) then None else Some ms.
Proof.
  destruct ms as [|m ms]; [reflexivity|].
  rewrite decide_False by done. apply (movies_of_json_movies_json (m :: ms)).
Qed.

End Json.
