(* ===== verification/Router.v ===== *)
(** The route table built by the [@app.get] decorators of main.py, and how
    FastAPI/Starlette dispatches a GET request through it.

    Starlette compiles each path template to a regular expression in which
    a [{param}] of type [str] matches [[^/]+].  It tries the routes in
    declaration order, and the first full match handles the request.  When
    no route matches, [redirect_slashes] retries the path with its
    trailing slash toggled.  If that path matches, the answer is a 307
    redirect, otherwise a 404.  FastAPI then reads the handler's required
    query parameters.  A missing one gives a 422 response.  A repeated one
    takes its last value, as [ImmutableMultiDict.get] does.  In the
    templates of main.py a parameter is always the last segment, so
    matching it greedily, as [match_template] does, is exact.

    FastAPI's own documentation routes answer with a page
    ([DocsResponse]) that is not modelled further.  The router calls the
    handlers of main.py through a record [handlers], one field per
    endpoint: [serve] dispatches to the handlers of [Service] over an
    explicit catalog, and [Startup] plugs in the handlers of the running
    process.  [client_fetch] is a client that follows redirects, with fuel
    bounding its requests.  The theorems show two requests are always
    enough, whatever the handlers.

    Only GET requests are modelled (every route of main.py is a GET
    route), and paths are taken already percent-decoded. *)

From S2P Require Import Prelude PyStr Catalog Expander Matcher Service.

Open Scope stdpp_scope.

Module Router.
Import Catalog Expander Matcher Service.

Inductive tseg : Type :=
| TLit (s : string)
| TParam (name : string).

Inductive endpoint : Type :=
| EOpenAPI | ESwaggerUI | ESwaggerRedirect | EReDoc
| EHome | EGetMovies | EGetMovie | EChatbot | EByCategory.

#[export] Instance endpoint_eq_dec : EqDecision endpoint.
Proof. solve_decision. Defined.

(** The routes of the application in the order Starlette tries them.
    [FastAPI(...)] (main.py 52) first registers the documentation routes
    of its [setup()]: [openapi_url], [docs_url],
    [swagger_ui_oauth2_redirect_url] and [redoc_url] at their defaults.
    Then come the decorators of main.py 56, 66, 71, 78 and 97, in
    declaration order. *)
Definition route_table : list (list tseg * endpoint) :=
  [([TLit "/openapi.json"], EOpenAPI);
   ([TLit "/docs"], ESwaggerUI);
   ([TLit "/docs/oauth2-redirect"], ESwaggerRedirect);
   ([TLit "/redoc"], EReDoc);
   ([TLit "/"], EHome);
   ([TLit "/movies"], EGetMovies);
   ([TLit "/movies/"; TParam "id"], EGetMovie);
   ([TLit "/chatbot"], EChatbot);
   ([TLit "/movies/by_category/"], EByCategory)].

(** [s] without its prefix [p], if [p] is one. *)
Fixpoint strip_prefix (p s : string) : option string :=
  match p, s with
  | EmptyString, _ => Some s
  | String a p', String b s' => if Ascii.eqb a b then strip_prefix p' s' else None
  | String _ _, EmptyString => None
  end.

(** The longest prefix without '/', and the rest. *)
Fixpoint split_segment (s : string) : string * string :=
  match s with
  | EmptyString => ("", "")
  | String c s' =>
      if Ascii.eqb c "/" then ("", s)
      else let '(a, b) := split_segment s' in (String c a, b)
  end.

(** The full match of a template, with its path parameters. *)
Fixpoint match_template (t : list tseg) (path : string) : option (list (string * string)) :=
  match t with
  | [] => match path with EmptyString => Some [] | _ => None end
  | TLit s :: t' => rest ← strip_prefix s path; match_template t' rest
  | TParam n :: t' =>
      let '(seg, rest) := split_segment path in
      match seg with
      | EmptyString => None
      | _ => ps ← match_template t' rest; Some ((n, seg) :: ps)
      end
  end.

Fixpoint first_match (tbl : list (list tseg * endpoint)) (path : string)
    : option (endpoint * list (string * string)) :=
  match tbl with
  | [] => None
  | (t, e) :: tbl' =>
      match match_template t path with
      | Some ps => Some (e, ps)
      | None => first_match tbl' path
      end
  end.

Inductive routing : Type :=
| Handle (e : endpoint) (params : list (string * string))
| Redirect (location : string)
| NoRoute.

Fixpoint drop_slashes (s : string) : string :=
  match s with
  | String "/" s' => drop_slashes s'
  | _ => s
  end.

(** The path [redirect_slashes] retries: [path.rstrip("/")] when it ends
    with a slash, [path + "/"] otherwise. *)
Definition toggle_slash (path : string) : string :=
  match String.rev path with
  | String "/" _ => String.rev (drop_slashes (String.rev path))
  | _ => path +:+ "/"
  end.

Definition route (path : string) : routing :=
  match first_match route_table path with
  | Some (e, ps) => Handle e ps
  | None =>
      if decide (path = "/") then NoRoute
      else match first_match route_table (toggle_slash path) with
           | Some _ => Redirect (toggle_slash path)
           | None => NoRoute
           end
  end.

Record request : Type := mkRequest {
  req_path : string;
  req_query : list (string * string)
}.

(** [request.query_params.get(name)]: the last value of the name. *)
Definition query_param (name : string) (qs : list (string * string)) : option string :=
  foldl (fun acc kv => if decide (kv.1 = name) then Some kv.2 else acc) None qs.

Inductive response : Type :=
| HandlerResponse (r : result pyret)
| RedirectResponse (location : string)
| ErrorResponse (status : Z) (detail : string)
| DocsResponse (page : endpoint).

(** The handlers the decorators register, one per endpoint, as the
    router calls them with the parameters it extracted. *)
Record handlers : Type := mkHandlers {
  on_home : result pyret;
  on_get_movies : result pyret;
  on_get_movie : string -> result pyret;
  on_chatbot : string -> result pyret;
  on_by_category : string -> result pyret
}.

(** Runs a handler that takes one parameter, or refuses the request with
    422 when the parameter is missing. *)
Definition with_param (name : string) (qs : list (string * string))
    (k : string -> result pyret) : response :=
  match query_param name qs with
  | Some v => HandlerResponse (k v)
  | None => ErrorResponse 422 "Field required"
  end.

Definition dispatch (h : handlers) (req : request) : response :=
  match route (req_path req) with
  | Handle ((EOpenAPI | ESwaggerUI | ESwaggerRedirect | EReDoc) as e) _ => DocsResponse e
  | Handle EHome _ => HandlerResponse (on_home h)
  | Handle EGetMovies _ => HandlerResponse (on_get_movies h)
  | Handle EGetMovie ps => with_param "id" ps (on_get_movie h)
  | Handle EChatbot _ => with_param "query" (req_query req) (on_chatbot h)
  | Handle EByCategory _ => with_param "category" (req_query req) (on_by_category h)
  | Redirect loc => RedirectResponse loc
  | NoRoute => ErrorResponse 404 "Not Found"
  end.

(** A client that follows redirects, keeping the query string as
    Starlette's redirect URL does, with at most [fuel] requests. *)
Fixpoint client_fetch (fuel : nat) (h : handlers) (req : request) : option response :=
  match fuel with
  | 0 => None
  | S fuel' =>
      match dispatch h req with
      | RedirectResponse loc => client_fetch fuel' h (mkRequest loc (req_query req))
      | r => Some r
      end
  end.

Section Serve.
Context `{WN : WordNet} `{TK : Tokenizer}.

(** The handlers of main.py over the loaded catalog. *)
Definition service_handlers (movies_list : list movie) : handlers :=
  mkHandlers home (get_movies movies_list) (get_movie movies_list) (chatbot movies_list)
    (get_movies_by_category movies_list).

Definition serve (movies_list : list movie) (req : request) : response :=
  dispatch (service_handlers movies_list) req.

End Serve.

(** Two handler sets are equivalent when they answer every call alike. *)
#[export] Instance handlers_equiv : Equiv handlers := fun h1 h2 =>
  on_home h1 = on_home h2 /\ on_get_movies h1 = on_get_movies h2 /\
  (forall v, on_get_movie h1 v = on_get_movie h2 v) /\
  (forall v, on_chatbot h1 v = on_chatbot h2 v) /\
  (forall v, on_by_category h1 v = on_by_category h2 v).

(** One step of a redirect chain: [p] is answered with a redirect to [q]. *)
Definition redirect_step (p q : string) : Prop := route p = Redirect q.

Definition response_status (r : response) : Z :=
  match r with
  | HandlerResponse v => status_of v
  | RedirectResponse _ => 307
  | ErrorResponse s _ => s
  | DocsResponse _ => 200
  end.

(** ** Lemmas *)

Lemma strip_prefix_app p s : strip_prefix p (p +:+ s) = Some s.
Proof. induction p as [|a p IH]; [done|]. simpl. by rewrite Ascii.eqb_refl. Qed.

Lemma split_segment_no_slash s :
  "/"%char ∉ String.list_ascii_of_string s -> split_segment s = (s, "").
Proof.
  induction s as [|c s IH]; [done|]. simpl. rewrite not_elem_of_cons. intros [Hc Hs].
  destruct (Ascii.eqb_spec c "/"); [done|]. by rewrite IH.
Qed.

Lemma query_param_app name qs v :
  query_param name (qs ++ [(name, v)]) = Some v.
Proof. unfold query_param. rewrite foldl_app. simpl. by rewrite decide_True. Qed.

Lemma query_param_None name qs :
  query_param name qs = None <-> name ∉ qs.*1.
Proof.
  unfold query_param. rewrite <- (reverse_involutive qs).
  induction (reverse qs) as [|[k v] r IH]; [set_solver|].
  rewrite reverse_cons, foldl_app, fmap_app. simpl. rewrite elem_of_app, list_elem_of_singleton.
  case_decide; [naive_solver|]. rewrite IH. naive_solver.
Qed.

Lemma route_Redirect_target p q :
  route p = Redirect q -> exists e ps, route q = Handle e ps.
Proof.
  unfold route. destruct (first_match route_table p) as [[e ps]|]; [done|].
  case_decide; [done|].
  destruct (first_match route_table (toggle_slash p)) as [[e ps]|] eqn:E; [|done].
  intros [= <-]. exists e, ps. by rewrite E.
Qed.

(** No redirect chain is longer than one step. *)
Lemma redirect_step_wf : well_founded (fun q p => redirect_step p q).
Proof.
  intros p. constructor. intros q Hq. constructor. intros r Hr. exfalso.
  destruct (route_Redirect_target p q Hq) as (e & ps & Hh).
  unfold redirect_step in Hr. congruence.
Qed.

Lemma dispatch_Handle_not_redirect h req e ps :
  route (req_path req) = Handle e ps -> forall loc, dispatch h req <> RedirectResponse loc.
Proof.
  intros Hr loc. unfold dispatch, with_param. rewrite Hr.
  destruct e; repeat case_match; done.
Qed.

#[export] Instance handlers_equivalence : Equivalence (≡@{handlers}).
Proof.
  split.
  - intros h. by split_and!.
  - intros h1 h2 (? & ? & ? & ? & ?). split_and!; congruence.
  - intros h1 h2 h3 (? & ? & ? & ? & ?) (? & ? & ? & ? & ?). split_and!; congruence.
Qed.

Lemma with_param_ext name qs k1 k2 :
  (forall v, k1 v = k2 v) -> with_param name qs k1 = with_param name qs k2.
Proof. intros Hk. unfold with_param. case_match; [by rewrite Hk|done]. Qed.

#[export] Instance dispatch_proper : Proper ((≡) ==> (=) ==> (=)) dispatch.
Proof.
  intros h1 h2 (Hh & Hm & Hg & Hc & Hb) req ? <-. unfold dispatch.
  destruct (route (req_path req)) as [[] ps| |]; rewrite ?Hh, ?Hm; try done;
    by apply with_param_ext.
Qed.

#[export] Instance client_fetch_proper : Proper ((=) ==> (≡) ==> (=) ==> (=)) client_fetch.
Proof.
  intros fuel ? <- h1 h2 Hh req ? <-. revert req.
  induction fuel as [|fuel IH]; intros req; [done|]. simpl.
  rewrite (dispatch_proper h1 h2 Hh req req eq_refl). case_match; auto.
Qed.

Lemma client_fetch_settles fuel h req :
  2 <= fuel ->
  client_fetch fuel h req = client_fetch 2 h req /\
  exists r, client_fetch 2 h req = Some r /\ forall loc, r <> RedirectResponse loc.
Proof.
  intros Hf. destruct fuel as [|[|fuel]]; [lia|lia|]. simpl.
  destruct (route (req_path req)) as [e ps|q|] eqn:Hr.
  - pose proof (dispatch_Handle_not_redirect h req e ps Hr) as Hn.
    destruct (dispatch h req) eqn:Hs; try (split; [done|by eexists]).
    by destruct (Hn location).
  - assert (dispatch h req = RedirectResponse q) as -> by (unfold dispatch; by rewrite Hr).
    destruct (route_Redirect_target _ _ Hr) as (e & ps & Hq).
    pose proof (dispatch_Handle_not_redirect h (mkRequest q (req_query req)) e ps Hq) as Hn.
    destruct fuel; simpl;
      destruct (dispatch h (mkRequest q (req_query req))) eqn:Hs;
      try (split; [done|by eexists]); by destruct (Hn location).
  - assert (dispatch h req = ErrorResponse 404 "Not Found") as -> by (unfold dispatch; by rewrite Hr).
    split; [done|by eexists].
Qed.

Lemma strip_prefix_Some p s r : strip_prefix p s = Some r -> s = p +:+ r.
Proof.
  revert s. induction p as [|a p IH]; intros s H.
  - by injection H as ->.
  - destruct s as [|b s]; [done|]. simpl in H.
    destruct (Ascii.eqb_spec a b) as [->|]; [|done]. by rewrite str_app_cons, <- (IH s H).
Qed.

(** A template of one literal matches exactly that path. *)
Lemma match_template_lit s q ps : match_template [TLit s] q = Some ps -> q = s /\ ps = [].
Proof.
  simpl. destruct (strip_prefix s q) as [r|] eqn:E; simpl; [|done].
  destruct r; [|done]. intros [= <-]. apply strip_prefix_Some in E.
  by rewrite str_app_nil_r in E.
Qed.

Lemma first_match_by_category q ps :
  first_match route_table q = Some (EByCategory, ps) -> q = "/movies/by_category/" /\ ps = [].
Proof.
  cbn [first_match route_table]. intros H.
  repeat case_match; simplify_eq. by apply match_template_lit.
Qed.

(** The category endpoint is reached by exactly one path. *)
Lemma route_by_category p ps :
  route p = Handle EByCategory ps <-> p = "/movies/by_category/" /\ ps = [].
Proof.
  split; [|by intros [-> ->]].
  unfold route. destruct (first_match route_table p) as [[e ps']|] eqn:E.
  - intros [= -> ->]. by apply first_match_by_category.
  - case_decide; [done|]. by case_match.
Qed.






(** ** Theorems *)

(** Every path "/movies/<id>" with a non-empty id without '/' reaches
    [get_movie], which is declared before "/movies/by_category/". *)
Theorem route_movie_id id :
  id <> "" -> "/"%char ∉ String.list_ascii_of_string id ->
  route ("/movies/" +:+ id) = Handle EGetMovie [("id", id)].
Proof.
  intros Hne Hslash. unfold route. rewrite !str_app_cons, str_app_nil. simpl.
  rewrite split_segment_no_slash by done.
  destruct id as [|c id]; [done|]. reflexivity.
Qed.

(** C14: the category endpoint is reached by exactly one path,
    "/movies/by_category/".  The same path without its trailing slash is
    not redirected to it: [/movies/{id}], declared first, handles it as
    [get_movie] with the id "by_category", whatever the query string. *)
Theorem by_category_reachability `{WN : WordNet} `{TK : Tokenizer} p ps ms qs :
  (route p = Handle EByCategory ps <-> p = "/movies/by_category/" /\ ps = []) /\
  serve ms (mkRequest "/movies/by_category" qs) = HandlerResponse (get_movie ms "by_category").
Proof. split; [apply route_by_category|reflexivity]. Qed.

(** "/movies/by_category/" reaches [get_movies_by_category] with the
    last value of its [category] parameter. *)
Theorem serve_by_category `{WN : WordNet} `{TK : Tokenizer} ms qs c :
  query_param "category" qs = Some c ->
  serve ms (mkRequest "/movies/by_category/" qs) = HandlerResponse (get_movies_by_category ms c).
Proof. intros Hc. unfold serve, dispatch. simpl. unfold with_param. by rewrite Hc. Qed.

(** A request to "/chatbot" without a [query] parameter is refused
    with status 422 before [chatbot] runs. *)
Theorem serve_chatbot_missing_query `{WN : WordNet} `{TK : Tokenizer} ms qs :
  "query" ∉ qs.*1 -> response_status (serve ms (mkRequest "/chatbot" qs)) = 422%Z.
Proof.
  intros Hq. unfold serve, dispatch. simpl. unfold with_param.
  apply query_param_None in Hq. by rewrite Hq.
Qed.

(** Over the handlers of [Service], whose NLTK calls cannot fail: a
    catalog loaded from a table whose category column has no integer cell
    is never answered with status 500.  [Startup.serve_app_no_server_error]
    adds the [LookupError] of missing NLTK data. *)
Theorem serve_no_server_error `{WN : WordNet} `{TK : Tokenizer} t ms j req :
  startup t = Ok ms ->
  index_of "listed_in" (header t) = Some j ->
  (forall r, r ∈ rows t -> forall z, cell_at r j <> Some (CInt z)) ->
  response_status (serve ms req) ∈ [200%Z; 307%Z; 404%Z; 422%Z].
Proof.
  intros Hload Hj Hrows.
  pose proof (loaded_catalog_wf t ms j Hj Hrows Hload) as Hwf.
  unfold serve, dispatch, with_param. simpl.
  destruct (route (req_path req)) as [[] ps| |]; simpl;
    repeat match goal with |- context [query_param ?n ?q] => destruct (query_param n q) as [v|] end;
    try (simpl; set_solver).
  - unfold chatbot, chatbot_results. simpl.
    rewrite (py_filter_wf _ (matches_terms (query_terms v))); [set_solver|apply chatbot_cond_wf|done].
  - unfold get_movies_by_category, category_results. simpl.
    rewrite (py_filter_wf _ (matches_category v)); [set_solver|apply category_cond_wf|done].
Qed.


(** ** Witnesses *)

Lemma route_movie_id_witness :
  "by_category" <> "" /\ ("/"%char ∉ String.list_ascii_of_string "by_category") /\
  route ("/movies/" +:+ "by_category") = Handle EGetMovie [("id", "by_category")].
Proof.
  assert ("by_category" <> "") as H1 by discriminate.
  assert ("/"%char ∉ String.list_ascii_of_string "by_category") as H2 by decide_by_eval.
  split_and!; [exact H1|exact H2|]. apply (route_movie_id _ H1 H2).
Defined.

Lemma serve_by_category_witness :
  query_param "category" [("category", "Comedy"); ("category", "drama")] = Some "drama" /\
  @serve Expander.TestDoubles.small_wordnet Expander.TestDoubles.nltk_like_tokenizer
    spec_catalog (mkRequest "/movies/by_category/" [("category", "Comedy"); ("category", "drama")])
  = HandlerResponse (get_movies_by_category spec_catalog "drama").
Proof.
  assert (query_param "category" [("category", "Comedy"); ("category", "drama")] = Some "drama")
    as H by reflexivity.
  split; [exact H|]. apply (serve_by_category _ _ _ H).
Defined.

Lemma serve_chatbot_missing_query_witness :
  ("query" ∉ [("q", "funny")].*1) /\
  response_status (@serve Expander.TestDoubles.small_wordnet Expander.TestDoubles.nltk_like_tokenizer
    spec_catalog (mkRequest "/chatbot" [("q", "funny")])) = 422%Z.
Proof.
  assert ("query" ∉ [("q", "funny")].*1) as H by decide_by_eval.
  split; [exact H|]. apply (serve_chatbot_missing_query _ _ H).
Defined.

Lemma serve_no_server_error_witness :
  startup sample_table = Ok (match load_movies sample_table with Ok ms => ms | Raise _ => [] end) /\
  response_status (@serve Expander.TestDoubles.small_wordnet Expander.TestDoubles.nltk_like_tokenizer
    (match load_movies sample_table with Ok ms => ms | Raise _ => [] end)
    (mkRequest "/chatbot" [("query", "funny dramas")])) ∈ [200%Z; 307%Z; 404%Z; 422%Z].
Proof.
  assert (startup sample_table =
          Ok (match load_movies sample_table with Ok ms => ms | Raise _ => [] end)) as H
    by (vm_compute; reflexivity).
  split; [exact H|]. apply (serve_no_server_error sample_table _ 5 _ H); [reflexivity|].
  rewrite <- Forall_forall. repeat constructor; intros z; discriminate.
Defined.


End Router.
