(* ===== verification/Startup.v ===== *)
(** The top level of main.py, run once when the module is imported
    (main.py 22-52), and the NLTK resources that [chatbot] loads lazily.

    NLTK keeps process-wide state: the list [nltk.data.path] of data
    directories, and the resources installed in them.  The import runs, in
    order:
    - [nltk.data.path.append('/home/serhoyos/nltk_data')] (line 22);
    - [nltk.download('punkt')] and [nltk.download('wordnet')] (26-27).
      A download installs the resource into NLTK's download directory when
      it succeeds.  On failure (no network, unknown id) it prints an error
      and returns [False]; it never raises;
    - [movies_list = load_movies()] (42), which may raise [KeyError]: the
      import then fails and the service never starts;
    - [app = FastAPI(title=..., version=...)] (52).
    [import_main] threads the NLTK state through these statements.  Whether
    a download succeeds depends on the machine, so the Section takes it as
    a parameter, [download_ok], together with the download directory.

    At run time, [word_tokenize] loads the Punkt resource on every call,
    whatever the text.  [wordnet.synsets] loads the [wordnet] corpus on
    first use, which happens only when the query has a token.  A resource
    missing from every directory of the data path raises [LookupError].
    NLTK up to 3.8.1 reads the Punkt model from the resource "punkt";
    NLTK 3.8.2 and later read "punkt_tab".  [chatbot_app] takes the name as
    a parameter ([tokenizer_resource]). *)

From S2P Require Import Prelude PyStr Catalog Expander Matcher Service Router.

Open Scope stdpp_scope.

Module Startup.
Import Catalog Expander Service Router.

Record nltk_state : Type := mkNltk {
  data_path : list string;
  installed : list (string * string)    (* (directory, resource) *)
}.

(** [app = FastAPI(title=..., version=...)] *)
Record app_info : Type := mkApp { app_title : string; app_version : string }.

Definition app : app_info := mkApp "Mi aplicación de películas" "1.0.0".

(** The module's globals once the import has run. *)
Record module_state : Type := mkModule {
  nltk : nltk_state;
  movies_list : list movie;
  the_app : app_info
}.

Definition nltk_home : string := "/home/serhoyos/nltk_data".

(** [nltk.data.path.append(d)] *)
Definition path_append (d : string) (s : nltk_state) : nltk_state :=
  mkNltk (data_path s ++ [d]) (installed s).

(** A resource is found when some directory of the path holds it. *)
Definition resource_found (s : nltk_state) (r : string) : bool :=
  List.existsb (fun d => bool_decide ((d, r) ∈ installed s)) (data_path s).

(** [nltk.data.find(r)]: [LookupError] when no directory has it. *)
Definition nltk_find (s : nltk_state) (r : string) : result unit :=
  if resource_found s r then Ok tt else Raise (LookupError r).

Section Import.
Context (download_ok : string -> bool) (download_dir : string).

(** [nltk.download(r)]: [True] and the resource installed, or [False]. *)
Definition nltk_download (r : string) (s : nltk_state) : bool * nltk_state :=
  if download_ok r then (true, mkNltk (data_path s) ((download_dir, r) :: installed s))
  else (false, s).

(** The module body, from line 22 to line 52. *)
Definition import_main (t : table) (s0 : nltk_state) : result module_state :=
  let s1 := path_append nltk_home s0 in
  let s2 := (nltk_download "punkt" s1).2 in
  let s3 := (nltk_download "wordnet" s2).2 in
  ms <- startup t ;;
  Ok (mkModule s3 ms app).

End Import.

Section Run.
Context `{WN : WordNet} `{TK : Tokenizer}.

(** [chatbot(query)] in the running process: [word_tokenize] loads the
    Punkt resource, then [wordnet.synsets] loads WordNet if there is a
    token, then the handler runs as [Service.chatbot]. *)
Definition chatbot_app (tokenizer_resource : string) (st : module_state) (query : string)
    : result pyret :=
  _ <- nltk_find (nltk st) tokenizer_resource ;;
  _ <- (match query_words query with
        | [] => Ok tt
        | _ => nltk_find (nltk st) "wordnet"
        end) ;;
  chatbot (movies_list st) query.

(** The handlers the decorators register on [app], reading the module's
    [movies_list], with [chatbot] running in the process. *)
Definition app_handlers (tokenizer_resource : string) (st : module_state) : handlers :=
  mkHandlers home (get_movies (movies_list st)) (get_movie (movies_list st))
    (chatbot_app tokenizer_resource st) (get_movies_by_category (movies_list st)).

End Run.

(** ** Lemmas *)

Lemma resource_found_spec s r :
  resource_found s r = true <-> exists d, d ∈ data_path s /\ (d, r) ∈ installed s.
Proof.
  unfold resource_found. rewrite existsb_exists.
  setoid_rewrite bool_decide_eq_true. setoid_rewrite list_elem_of_In. done.
Qed.

Lemma nltk_download_path ok dir r s : data_path (nltk_download ok dir r s).2 = data_path s.
Proof. unfold nltk_download. by destruct (ok r). Qed.

Lemma nltk_download_installed ok dir r s :
  installed (nltk_download ok dir r s).2 =
  if ok r then (dir, r) :: installed s else installed s.
Proof. unfold nltk_download. by destruct (ok r). Qed.

Lemma import_main_fails ok dir t s0 e :
  import_main ok dir t s0 = Raise e <-> load_movies t = Raise e.
Proof. unfold import_main, startup. destruct (load_movies t); simpl; split; congruence. Qed.

Lemma import_main_Ok_inv ok dir t s0 st :
  import_main ok dir t s0 = Ok st ->
  startup t = Ok (movies_list st) /\ the_app st = app /\
  data_path (nltk st) = data_path s0 ++ [nltk_home] /\
  installed (nltk st) =
    (if ok "wordnet" then [(dir, "wordnet")] else []) ++
    (if ok "punkt" then [(dir, "punkt")] else []) ++ installed s0.
Proof.
  unfold import_main. destruct (startup t) as [ms|e]; simpl; [|done].
  intros [= <-]. simpl. rewrite !nltk_download_path, !nltk_download_installed.
  split_and!; try done. by destruct (ok "wordnet"), (ok "punkt").
Qed.

Lemma import_main_installed_only ok dir t s0 st d r :
  import_main ok dir t s0 = Ok st -> (d, r) ∈ installed (nltk st) ->
  (d, r) ∈ installed s0 \/ r = "punkt" \/ r = "wordnet".
Proof.
  intros (_ & _ & _ & ->)%import_main_Ok_inv.
  rewrite !elem_of_app_if. naive_solver.
Qed.

(** The resources found after the import: those already installed in a
    directory of the extended path, and the two downloaded ones when their
    download succeeded into a directory of the path. *)
Lemma import_main_found ok dir t s0 st r :
  import_main ok dir t s0 = Ok st ->
  resource_found (nltk st) r = true <->
  (exists d, d ∈ data_path s0 ++ [nltk_home] /\ (d, r) ∈ installed s0) \/
  ((r = "punkt" \/ r = "wordnet") /\ ok r = true /\ dir ∈ data_path s0 ++ [nltk_home]).
Proof.
  intros (_ & _ & Hp & Hi)%import_main_Ok_inv. rewrite resource_found_spec, Hp, Hi.
  setoid_rewrite elem_of_app_if. setoid_rewrite elem_of_app_if. naive_solver.
Qed.

Lemma chatbot_app_found `{WN : WordNet} `{TK : Tokenizer} tokres st q :
  resource_found (nltk st) tokres = true -> resource_found (nltk st) "wordnet" = true ->
  chatbot_app tokres st q = chatbot (movies_list st) q.
Proof.
  intros Ht Hw. unfold chatbot_app, nltk_find. rewrite Ht. simpl.
  destruct (query_words q); simpl; [done|]. by rewrite Hw.
Qed.

Lemma app_handlers_found `{WN : WordNet} `{TK : Tokenizer} tokres st :
  resource_found (nltk st) tokres = true -> resource_found (nltk st) "wordnet" = true ->
  app_handlers tokres st ≡ service_handlers (movies_list st).
Proof. intros Ht Hw. split_and!; try done. intros q. by apply chatbot_app_found. Qed.

(** Only the [chatbot] route reaches NLTK. *)
Lemma dispatch_app_other `{WN : WordNet} `{TK : Tokenizer} tokres st req :
  (forall ps, route (req_path req) <> Handle EChatbot ps) ->
  dispatch (app_handlers tokres st) req = serve (movies_list st) req.
Proof.
  intros Hr. unfold serve, dispatch.
  destruct (route (req_path req)) as [[] ps| |]; try done. by destruct (Hr ps).
Qed.

(** ** Theorems *)

(** C32: the import of main.py fails exactly when [load_movies]
    raises, with the same exception; the NLTK setup before it never makes
    the import fail, whatever the downloads do. *)
Theorem import_main_Raise ok dir t s0 e :
  import_main ok dir t s0 = Raise e <-> load_movies t = Raise e.
Proof. apply import_main_fails. Qed.

(** C23: after a successful import the data path is the
    initial one with [/home/serhoyos/nltk_data] appended, the app is the one
    of line 52, and a resource is found exactly when it was already
    installed in a directory of that path, or it is [punkt] or [wordnet],
    its download succeeded, and the download directory is on the path. *)
Theorem import_main_resources ok dir t s0 st r :
  import_main ok dir t s0 = Ok st ->
  data_path (nltk st) = data_path s0 ++ [nltk_home] /\ the_app st = app /\
  (resource_found (nltk st) r = true <->
   (exists d, d ∈ data_path s0 ++ [nltk_home] /\ (d, r) ∈ installed s0) \/
   ((r = "punkt" \/ r = "wordnet") /\ ok r = true /\ dir ∈ data_path s0 ++ [nltk_home])).
Proof.
  intros H. pose proof (import_main_Ok_inv ok dir t s0 st H) as (_ & Ha & Hp & _).
  split_and!; [done|done|]. exact (import_main_found ok dir t s0 st r H).
Qed.

Section RunTheorems.
Context `{WN : WordNet} `{TK : Tokenizer}.

(** With an NLTK whose tokenizer reads [punkt_tab] (3.8.2 and
    later), on a machine where no directory holds [punkt_tab], every call of
    [chatbot] raises [LookupError], for every query, the blank one
    included: the import downloads [punkt], never [punkt_tab]. *)
Theorem chatbot_app_punkt_tab ok dir t s0 st q :
  (forall d, (d, "punkt_tab") ∉ installed s0) ->
  import_main ok dir t s0 = Ok st ->
  chatbot_app "punkt_tab" st q = Raise (LookupError "punkt_tab").
Proof.
  intros Hnone H. unfold chatbot_app, nltk_find.
  destruct (resource_found (nltk st) "punkt_tab") eqn:Hf; [|done].
  apply (import_main_found ok dir t s0 st _ H) in Hf as [(d & _ & Hd)|([? | ?] & _)];
    [by destruct (Hnone d)|done|done].
Qed.

(** With an NLTK whose tokenizer reads [punkt], when
    both downloads succeed into a directory of the path, the running
    [chatbot] behaves as the handler [Service.chatbot] on the loaded
    catalog, for every query. *)
Theorem chatbot_app_resources ok dir t s0 st q :
  ok "punkt" = true -> ok "wordnet" = true -> dir ∈ data_path s0 ++ [nltk_home] ->
  import_main ok dir t s0 = Ok st ->
  chatbot_app "punkt" st q = chatbot (movies_list st) q.
Proof.
  intros Hp Hw Hd H. apply chatbot_app_found; apply (import_main_found ok dir t s0 st _ H); eauto.
Qed.

(** On a machine without [punkt_tab], a request reaching [chatbot] with a
    query raises [LookupError]: status 500. *)
Lemma dispatch_app_punkt_tab_chatbot ok dir t s0 st req :
  (forall d, (d, "punkt_tab") ∉ installed s0) ->
  import_main ok dir t s0 = Ok st ->
  (exists ps, route (req_path req) = Handle EChatbot ps) -> "query" ∈ (req_query req).*1 ->
  response_status (dispatch (app_handlers "punkt_tab" st) req) = 500%Z.
Proof.
  intros Hnone H [ps Hr] Hq. unfold dispatch, with_param. rewrite Hr.
  destruct (query_param "query" (req_query req)) as [q|] eqn:Hv;
    [|by apply query_param_None in Hv].
  simpl. by rewrite (chatbot_app_punkt_tab ok dir t s0 st q Hnone H).
Qed.

(** C4: with an NLTK whose tokenizer reads [punkt], when both
    downloads succeed into a directory of the path, the running service
    answers every request as the handlers of main.py over the loaded
    catalog, and so does a client that follows redirects. *)
Theorem serve_app_refines ok dir t s0 st :
  ok "punkt" = true -> ok "wordnet" = true -> dir ∈ data_path s0 ++ [nltk_home] ->
  import_main ok dir t s0 = Ok st ->
  forall fuel req,
    dispatch (app_handlers "punkt" st) req = serve (movies_list st) req /\
    client_fetch fuel (app_handlers "punkt" st) req =
      client_fetch fuel (service_handlers (movies_list st)) req.
Proof.
  intros Hp Hw Hd H fuel req.
  assert (app_handlers "punkt" st ≡ service_handlers (movies_list st)) as Heq.
  { apply app_handlers_found; apply (import_main_found ok dir t s0 st _ H); eauto. }
  unfold serve. by rewrite Heq.
Qed.

(** C13: with an NLTK whose tokenizer reads [punkt_tab] and no
    directory holding it before the import, every request that reaches
    [chatbot] with a [query] parameter is answered with status 500, and
    every other request is answered as the handlers of main.py answer it. *)
Theorem serve_app_punkt_tab ok dir t s0 st req :
  (forall d, (d, "punkt_tab") ∉ installed s0) ->
  import_main ok dir t s0 = Ok st ->
  ((exists ps, route (req_path req) = Handle EChatbot ps) -> "query" ∈ (req_query req).*1 ->
   response_status (dispatch (app_handlers "punkt_tab" st) req) = 500%Z) /\
  ((forall ps, route (req_path req) <> Handle EChatbot ps) ->
   dispatch (app_handlers "punkt_tab" st) req = serve (movies_list st) req).
Proof.
  intros Hnone H. split; [by apply (dispatch_app_punkt_tab_chatbot ok dir t s0)|].
  apply dispatch_app_other.
Qed.

(** C39: the running [chatbot] answers with status 500 exactly
    when the tokenizer's resource is missing from the data path, or the
    query has a token and WordNet is missing, or the expanded query is
    non-empty and some record's category is not a string. *)
Theorem chatbot_app_status tokres st q :
  status_of (chatbot_app tokres st q) = 500%Z <->
  resource_found (nltk st) tokres = false \/
  (query_words q <> [] /\ resource_found (nltk st) "wordnet" = false) \/
  (query_terms q ≠ ∅ /\ exists m z, m ∈ movies_list st /\ category m = CInt z).
Proof.
  unfold chatbot_app, nltk_find.
  destruct (resource_found _ tokres) eqn:Ht; simpl; [|split; auto].
  destruct (query_words q) eqn:Hw; simpl; [rewrite chatbot_status; naive_solver|].
  destruct (resource_found _ "wordnet") eqn:Hwn; simpl; [|split; [intros _; right; by left|done]].
  rewrite chatbot_status. naive_solver.
Qed.

(** C20: end to end, a process whose import succeeded, with the
    tokenizer's resource and WordNet on its data path and no integer cell
    in the category column, never answers a GET request with status 500:
    every response is 200, 307, 404 or 422. *)
Theorem serve_app_no_server_error tokres ok dir t s0 st j req :
  import_main ok dir t s0 = Ok st ->
  resource_found (nltk st) tokres = true -> resource_found (nltk st) "wordnet" = true ->
  index_of "listed_in" (header t) = Some j ->
  (forall r, r ∈ rows t -> forall z, cell_at r j <> Some (CInt z)) ->
  response_status (dispatch (app_handlers tokres st) req) ∈ [200%Z; 307%Z; 404%Z; 422%Z].
Proof.
  intros H Ht Hw Hj Hrows.
  rewrite (dispatch_proper _ _ (app_handlers_found tokres st Ht Hw) req req eq_refl).
  destruct (import_main_Ok_inv _ _ _ _ _ H) as (Hl & _).
  by apply (serve_no_server_error t _ j).
Qed.

End RunTheorems.

(** ** Witnesses: a fresh machine with network access *)
Module StartupWitnesses.
Import Expander.TestDoubles.

Definition fresh : nltk_state := mkNltk [] [].
Definition online : string -> bool := fun _ => true.

Lemma import_main_resources_witness :
  exists st, import_main online nltk_home sample_table fresh = Ok st /\
  data_path (nltk st) = [nltk_home] /\ the_app st = app /\
  (resource_found (nltk st) "wordnet" = true <->
   (exists d, d ∈ data_path fresh ++ [nltk_home] /\ (d, "wordnet") ∈ installed fresh) \/
   (("wordnet" = "punkt" \/ "wordnet" = "wordnet") /\ online "wordnet" = true /\
    nltk_home ∈ data_path fresh ++ [nltk_home])).
Proof.
  eexists. split; [vm_compute; reflexivity|].
  apply (import_main_resources online nltk_home sample_table fresh). vm_compute. reflexivity.
Defined.

Lemma serve_app_refines_witness :
  exists st, import_main online nltk_home sample_table fresh = Ok st /\
  dispatch (@app_handlers small_wordnet nltk_like_tokenizer "punkt" st)
    (mkRequest "/chatbot" [("query", "funny")]) =
    @serve small_wordnet nltk_like_tokenizer (movies_list st) (mkRequest "/chatbot" [("query", "funny")]) /\
  client_fetch 2 (@app_handlers small_wordnet nltk_like_tokenizer "punkt" st)
    (mkRequest "/chatbot/" [("query", "funny")]) =
    client_fetch 2 (@service_handlers small_wordnet nltk_like_tokenizer (movies_list st))
      (mkRequest "/chatbot/" [("query", "funny")]).
Proof.
  eexists. split; [vm_compute; reflexivity|].
  assert (nltk_home ∈ data_path fresh ++ [nltk_home]) as Hd by decide_by_eval.
  pose proof (@serve_app_refines small_wordnet nltk_like_tokenizer online nltk_home sample_table
                fresh _ eq_refl eq_refl Hd ltac:(vm_compute; reflexivity)) as Hr.
  split; [exact (proj1 (Hr 0 _))|exact (proj2 (Hr 2 _))].
Defined.

(** On a fresh machine even the blank query [GET /chatbot?query=]
    answers 500. *)
Lemma serve_app_punkt_tab_witness :
  exists st, import_main online nltk_home sample_table fresh = Ok st /\
  response_status (dispatch (@app_handlers small_wordnet nltk_like_tokenizer "punkt_tab" st)
    (mkRequest "/chatbot" [("query", "")])) = 500%Z.
Proof.
  eexists. split; [vm_compute; reflexivity|].
  assert ("query" ∈ (req_query (mkRequest "/chatbot" [("query", "")])).*1) as Hq
    by decide_by_eval.
  pose proof (@serve_app_punkt_tab small_wordnet nltk_like_tokenizer online nltk_home sample_table
                fresh _ (mkRequest "/chatbot" [("query", "")])
                (fun d => not_elem_of_nil _) ltac:(vm_compute; reflexivity)) as Hr.
  apply (proj1 Hr); [by eexists|exact Hq].
Defined.

Lemma serve_app_no_server_error_witness :
  exists st, import_main online nltk_home sample_table fresh = Ok st /\
  resource_found (nltk st) "punkt" = true /\ resource_found (nltk st) "wordnet" = true /\
  index_of "listed_in" (header sample_table) = Some 5 /\
  response_status (dispatch (@app_handlers small_wordnet nltk_like_tokenizer "punkt" st)
    (mkRequest "/chatbot" [("query", "funny dramas")])) ∈ [200%Z; 307%Z; 404%Z; 422%Z].
Proof.
  eexists. assert (import_main online nltk_home sample_table fresh = Ok _) as Hi
    by (vm_compute; reflexivity).
  assert (resource_found (nltk (match import_main online nltk_home sample_table fresh with
            Ok st => st | Raise _ => mkModule fresh [] app end)) "punkt" = true) as Ht
    by reflexivity.
  assert (resource_found (nltk (match import_main online nltk_home sample_table fresh with
            Ok st => st | Raise _ => mkModule fresh [] app end)) "wordnet" = true) as Hw
    by reflexivity.
  assert (index_of "listed_in" (header sample_table) = Some 5) as Hj by reflexivity.
  split_and!; [exact Hi|exact Ht|exact Hw|exact Hj|].
  apply (serve_app_no_server_error "punkt" online nltk_home sample_table fresh _ 5 _ Hi Ht Hw Hj).
  rewrite <- Forall_forall. repeat constructor; intros z; discriminate.
Defined.

End StartupWitnesses.

End Startup.
