(* ===== verification/Process.v ===== *)
(** The life of the server process: the import of main.py, then one request
    after another against the module's state.

    The spec says the catalog is process-wide read-only state, loaded once
    at startup.  What does change while the process runs is NLTK's: the
    [wordnet] object is a [LazyCorpusLoader] that loads the corpus at its
    first use and then turns itself into the corpus reader, so later calls
    look nothing up; the Punkt tokenizer is loaded once and cached.  A
    failed load caches nothing, and the next call tries again.
    [proc_state] holds the module state and these two flags;
    [chatbot_proc] is [chatbot] with the caches threaded through, and
    [serve_proc] is one request served by the process.

    [step] is the labelled transition relation of the process: boot
    (import succeeds or the process crashes) and one request served,
    labelled with the exchange.  [steps] is its closure, with the trace of
    exchanges in order.  The theorems show, by induction on [steps], that
    the catalog and NLTK's data never change while the process runs and
    that the caches only record resources that exist.  From that, the
    caches are transparent: every response of every trace is the response
    [dispatch] gives to that request alone on the booted state, whatever
    came before it. *)

From S2P Require Import Prelude PyStr Catalog Expander Matcher Service Router Startup.

Open Scope stdpp_scope.

Module Process.
Import Catalog Expander Service Router Startup.

Record proc_state : Type := mkProc {
  module : module_state;
  punkt_loaded : bool;
  wordnet_loaded : bool
}.

Inductive process : Type :=
| Booting (s0 : nltk_state)
| Running (ps : proc_state)
| Crashed (e : exn).

(** A lazily loaded resource: no lookup once loaded, [nltk.data.find]
    otherwise. *)
Definition load_once (loaded : bool) (s : nltk_state) (r : string) : result unit :=
  if loaded then Ok tt else nltk_find s r.

Section Serving.
Context `{WN : WordNet} `{TK : Tokenizer}.
Context (tokenizer_resource : string).

(** [chatbot(query)] in the process: Punkt is loaded by [word_tokenize],
    WordNet by the first [wordnet.synsets] call, i.e. when the query has a
    token; each successful load is remembered. *)
Definition chatbot_proc (ps : proc_state) (query : string) : result pyret * proc_state :=
  let s := nltk (module ps) in
  match load_once (punkt_loaded ps) s tokenizer_resource with
  | Raise e => (Raise e, ps)
  | Ok _ =>
      let ps1 := mkProc (module ps) true (wordnet_loaded ps) in
      match query_words query with
      | [] => (chatbot (movies_list (module ps)) query, ps1)
      | _ =>
          match load_once (wordnet_loaded ps1) s "wordnet" with
          | Raise e => (Raise e, ps1)
          | Ok _ => (chatbot (movies_list (module ps)) query, mkProc (module ps) true true)
          end
      end
  end.

(** One request served by the process.  Only [chatbot] touches NLTK; the
    other routes answer as [app_handlers] does. *)
Definition serve_proc (ps : proc_state) (req : request) : response * proc_state :=
  match route (req_path req) with
  | Handle EChatbot _ =>
      match query_param "query" (req_query req) with
      | Some q => let '(r, ps') := chatbot_proc ps q in (HandlerResponse r, ps')
      | None => (ErrorResponse 422 "Field required", ps)
      end
  | _ => (dispatch (app_handlers tokenizer_resource (module ps)) req, ps)
  end.

(** A sequence of requests served in order. *)
Fixpoint serve_all (ps : proc_state) (reqs : list request) : list response * proc_state :=
  match reqs with
  | [] => ([], ps)
  | req :: reqs' =>
      let '(r, ps1) := serve_proc ps req in
      let '(rs, ps2) := serve_all ps1 reqs' in (r :: rs, ps2)
  end.

Section Lifecycle.
Context (download_ok : string -> bool) (download_dir : string) (t : table).

Inductive step : process -> option (request * response) -> process -> Prop :=
| step_boot s0 st :
    import_main download_ok download_dir t s0 = Ok st ->
    step (Booting s0) None (Running (mkProc st false false))
| step_crash s0 e :
    import_main download_ok download_dir t s0 = Raise e ->
    step (Booting s0) None (Crashed e)
| step_request ps req :
    step (Running ps) (Some (req, (serve_proc ps req).1)) (Running (serve_proc ps req).2).

(** The closure of [step], with the exchanges in the order they happen. *)
Inductive steps : process -> list (request * response) -> process -> Prop :=
| steps_refl p : steps p [] p
| steps_silent p p' tr p'' : step p None p' -> steps p' tr p'' -> steps p tr p''
| steps_exchange p x p' tr p'' : step p (Some x) p' -> steps p' tr p'' -> steps p (x :: tr) p''.

End Lifecycle.
End Serving.

(** The caches record only resources that exist in the data path. *)
Definition caches_ok (tokres : string) (ps : proc_state) : Prop :=
  (punkt_loaded ps = true -> resource_found (nltk (module ps)) tokres = true) /\
  (wordnet_loaded ps = true -> resource_found (nltk (module ps)) "wordnet" = true).

(** ** Lemmas *)

Section ServingLemmas.
Context `{WN : WordNet} `{TK : Tokenizer} (tokres : string).

Lemma load_once_found loaded s r :
  (loaded = true -> resource_found s r = true) -> load_once loaded s r = nltk_find s r.
Proof.
  intros H. unfold load_once, nltk_find. destruct loaded; [|done]. by rewrite H.
Qed.

Lemma nltk_find_Ok s r u : nltk_find s r = Ok u -> resource_found s r = true.
Proof. unfold nltk_find. by destruct (resource_found s r). Qed.

(** One [chatbot] call: the module is untouched, the caches stay sound,
    and the answer is the one of the stateless [chatbot_app]. *)
Lemma chatbot_proc_sound ps q :
  caches_ok tokres ps ->
  (chatbot_proc tokres ps q).1 = chatbot_app tokres (module ps) q /\
  module (chatbot_proc tokres ps q).2 = module ps /\
  caches_ok tokres (chatbot_proc tokres ps q).2.
Proof.
  intros [Hp Hw]. unfold chatbot_proc, chatbot_app.
  rewrite (load_once_found _ _ _ Hp).
  destruct (nltk_find _ tokres) as [u|e] eqn:Ht; simpl; [|by split_and!; [|done|split]].
  apply nltk_find_Ok in Ht.
  destruct (query_words q); simpl; [split_and!; [done|done|split; simpl; auto]|].
  rewrite (load_once_found _ _ _ Hw).
  destruct (nltk_find _ "wordnet") as [u'|e] eqn:Hwn; simpl;
    [apply nltk_find_Ok in Hwn|]; split_and!; try done; split; simpl; auto.
Qed.

Lemma serve_proc_sound ps req :
  caches_ok tokres ps ->
  (serve_proc tokres ps req).1 = dispatch (app_handlers tokres (module ps)) req /\
  module (serve_proc tokres ps req).2 = module ps /\
  caches_ok tokres (serve_proc tokres ps req).2.
Proof.
  intros Hc. unfold serve_proc.
  destruct (route (req_path req)) as [[] ps'| |] eqn:Hr; try by split_and!.
  unfold dispatch, with_param. rewrite Hr.
  destruct (query_param "query" (req_query req)) as [q|]; [|by split_and!].
  destruct (chatbot_proc_sound ps q Hc) as (H1 & H2 & H3).
  destruct (chatbot_proc tokres ps q) as [r ps1]. simpl in *. by rewrite H1.
Qed.

Section LifecycleLemmas.
Context (ok : string -> bool) (dir : string) (t : table).

(** From a running state with sound caches, every reachable state runs
    the same module with sound caches, and every exchange is answered as
    [dispatch] answers the request alone. *)
Lemma steps_running ps tr p :
  steps tokres ok dir t (Running ps) tr p -> caches_ok tokres ps ->
  exists ps', p = Running ps' /\ module ps' = module ps /\ caches_ok tokres ps' /\
    Forall (fun x => x.2 = dispatch (app_handlers tokres (module ps)) x.1) tr.
Proof.
  remember (Running ps) as p0 eqn:E. intros Hs. revert ps E.
  induction Hs as [p|p p' tr p'' Hst Hs IH|p x p' tr p'' Hst Hs IH]; intros ps -> Hc.
  - by exists ps.
  - inversion Hst.
  - inversion Hst as [| |ps0 req]; subst.
    destruct (serve_proc_sound ps req Hc) as (H1 & H2 & H3).
    destruct (IH _ eq_refl H3) as (ps' & -> & Hm & Hc' & Hf).
    exists ps'. rewrite Hm, H2 in *. split_and!; [done|done|done|]. constructor; [done|done].
Qed.

Lemma steps_crashed e tr p : steps tokres ok dir t (Crashed e) tr p -> p = Crashed e /\ tr = [].
Proof.
  remember (Crashed e) as p0 eqn:E. intros Hs. revert E.
  induction Hs as [p|p p' tr p'' Hst|p x p' tr p'' Hst]; intros ->; [done|inversion Hst|inversion Hst].
Qed.

(** Every state reachable from boot: still booting, crashed with the
    import's exception and silent, or running the imported module. *)
Lemma steps_boot s0 tr p :
  steps tokres ok dir t (Booting s0) tr p ->
  (p = Booting s0 /\ tr = []) \/
  (exists e, import_main ok dir t s0 = Raise e /\ p = Crashed e /\ tr = []) \/
  (exists st ps, import_main ok dir t s0 = Ok st /\ p = Running ps /\ module ps = st /\
     caches_ok tokres ps /\ Forall (fun x => x.2 = dispatch (app_handlers tokres st) x.1) tr).
Proof.
  inversion 1 as [|? p' ? ? Hst Hs|? x p' ? ? Hst]; subst; [by left| |inversion Hst].
  right. inversion Hst as [? st Hi|? e Hi|]; subst.
  - right. assert (caches_ok tokres (mkProc st false false)) as Hc by done.
    destruct (steps_running _ _ _ Hs Hc) as (ps' & -> & Hm & Hc' & Hf).
    by exists st, ps'.
  - left. apply steps_crashed in Hs as [-> ->]. by exists e.
Qed.

End LifecycleLemmas.

Lemma serve_all_sound ps reqs :
  caches_ok tokres ps ->
  (serve_all tokres ps reqs).1 = dispatch (app_handlers tokres (module ps)) <$> reqs /\
  module (serve_all tokres ps reqs).2 = module ps /\ caches_ok tokres (serve_all tokres ps reqs).2.
Proof.
  revert ps. induction reqs as [|req reqs IH]; intros ps Hc; simpl; [done|].
  destruct (serve_proc_sound ps req Hc) as (H1 & H2 & H3).
  destruct (serve_proc tokres ps req) as [r ps1]. simpl in *.
  destruct (IH ps1 H3) as (H4 & H5 & H6).
  destruct (serve_all tokres ps1 reqs) as [rs ps2]. simpl in *.
  rewrite H1, H4, H2, H5. by split_and!.
Qed.

(** The executable server realises the step relation. *)
Lemma serve_all_steps ok dir t ps reqs :
  steps tokres ok dir t (Running ps) (zip reqs (serve_all tokres ps reqs).1)
    (Running (serve_all tokres ps reqs).2).
Proof.
  revert ps. induction reqs as [|req reqs IH]; intros ps; simpl; [constructor|].
  destruct (serve_proc tokres ps req) as [r ps1] eqn:E.
  pose proof (IH ps1) as Hs.
  destruct (serve_all tokres ps1 reqs) as [rs ps2]. simpl in *.
  eapply steps_exchange; [|exact Hs].
  replace r with (serve_proc tokres ps req).1 by by rewrite E.
  replace ps1 with (serve_proc tokres ps req).2 by by rewrite E.
  constructor.
Qed.

End ServingLemmas.

(** ** Theorems *)

Section ProcessTheorems.
Context `{WN : WordNet} `{TK : Tokenizer} (tokres : string).
Context (ok : string -> bool) (dir : string) (t : table).

(** C24: every running state reachable from boot runs the module
    the import produced: its catalog is the one [load_movies] read, never
    changed by a request, and NLTK's caches record only resources that
    exist. *)
Theorem process_state_invariant s0 tr ps :
  steps tokres ok dir t (Booting s0) tr (Running ps) ->
  import_main ok dir t s0 = Ok (module ps) /\ load_movies t = Ok (movies_list (module ps)) /\
  caches_ok tokres ps.
Proof.
  intros [[? _]|[(e & _ & ? & _)|(st & ps' & Hi & [= <-] & <- & Hc & _)]]%steps_boot;
    [done|done|].
  split_and!; [done| |done].
  by destruct (import_main_Ok_inv _ _ _ _ _ Hi) as (Hl & _).
Qed.

(** C5: the caches are transparent.  In every trace of a process
    whose import succeeded, each response is the one [dispatch] gives to
    that request alone on the imported module, whatever requests came
    before it. *)
Theorem process_responses s0 st tr p :
  import_main ok dir t s0 = Ok st ->
  steps tokres ok dir t (Booting s0) tr p ->
  Forall (fun x => x.2 = dispatch (app_handlers tokres st) x.1) tr.
Proof.
  intros Hi [[_ ->]|[(e & He & _ & ->)|(st' & ps & Hi' & _ & _ & _ & Hf)]]%steps_boot;
    [done|congruence|].
  by rewrite Hi in Hi'; injection Hi' as ->.
Qed.

(** C33: when [load_movies] raises, the process never answers a
    request: it stops in [Crashed] with that exception. *)
Theorem process_crash_silent s0 e tr p :
  load_movies t = Raise e ->
  steps tokres ok dir t (Booting s0) tr p ->
  tr = [] /\ (p = Booting s0 \/ p = Crashed e).
Proof.
  intros He [[-> ->]|[(e' & Hi & -> & ->)|(st & ps & Hi & _)]]%steps_boot.
  - by split; [|left].
  - apply import_main_fails in Hi. rewrite He in Hi. injection Hi as ->. by split; [|right].
  - apply (import_main_fails ok dir t s0) in He. congruence.
Qed.

(** C21: on a machine where no directory holds [punkt_tab],
    with an NLTK whose tokenizer reads it, the failure of [chatbot] is
    permanent: in every trace of the process, every request that reaches
    [chatbot] with a query is answered 500, however many came before. *)
Theorem process_punkt_tab_permanent s0 st tr p :
  tokres = "punkt_tab" ->
  (forall d, (d, "punkt_tab") ∉ installed s0) ->
  import_main ok dir t s0 = Ok st ->
  steps tokres ok dir t (Booting s0) tr p ->
  Forall (fun x => (exists ps, route (req_path x.1) = Handle EChatbot ps) ->
                   "query" ∈ (req_query x.1).*1 -> response_status x.2 = 500%Z) tr.
Proof.
  intros -> Hnone Hi [[_ ->]|[(e & He & _ & ->)|(st' & ps & Hi' & _ & _ & _ & Hf)]]%steps_boot;
    [done|congruence|].
  rewrite Hi in Hi'. injection Hi' as <-.
  eapply Forall_impl; [exact Hf|]. intros [req resp] Hr Hc Hq. simpl in *. rewrite Hr.
  by apply (dispatch_app_punkt_tab_chatbot ok dir t s0).
Qed.

End ProcessTheorems.

(** ** Witnesses: a fresh machine with network access, and the traces of
    three requests served by the process. *)
Module ProcessWitnesses.
Import Expander.TestDoubles Startup.StartupWitnesses.
#[local] Existing Instances small_wordnet nltk_like_tokenizer.

(** The second [chatbot] request finds WordNet already loaded. *)
Definition demo_reqs : list request :=
  [mkRequest "/chatbot" [("query", "funny")]; mkRequest "/movies/s1" [];
   mkRequest "/chatbot" [("query", "scary")]].

Definition booted (st : module_state) : proc_state := mkProc st false false.

Lemma demo_steps tokres st :
  import_main online nltk_home sample_table fresh = Ok st ->
  steps tokres online nltk_home sample_table (Booting fresh)
    (zip demo_reqs (serve_all tokres (booted st) demo_reqs).1)
    (Running (serve_all tokres (booted st) demo_reqs).2).
Proof. intros Hi. eapply steps_silent; [by constructor|apply serve_all_steps]. Qed.

Lemma process_state_invariant_witness :
  exists st, import_main online nltk_home sample_table fresh = Ok st /\
  steps "punkt" online nltk_home sample_table (Booting fresh)
    (zip demo_reqs (serve_all "punkt" (booted st) demo_reqs).1)
    (Running (serve_all "punkt" (booted st) demo_reqs).2) /\
  import_main online nltk_home sample_table fresh =
    Ok (module (serve_all "punkt" (booted st) demo_reqs).2) /\
  load_movies sample_table = Ok (movies_list (module (serve_all "punkt" (booted st) demo_reqs).2)) /\
  caches_ok "punkt" (serve_all "punkt" (booted st) demo_reqs).2.
Proof.
  eexists. assert (import_main online nltk_home sample_table fresh = Ok _) as Hi
    by (vm_compute; reflexivity).
  pose proof (demo_steps "punkt" _ Hi) as Hs.
  split; [exact Hi|split; [exact Hs|]].
  apply (process_state_invariant "punkt" online nltk_home sample_table fresh _ _ Hs).
Defined.

Lemma process_responses_witness :
  exists st, import_main online nltk_home sample_table fresh = Ok st /\
  steps "punkt" online nltk_home sample_table (Booting fresh)
    (zip demo_reqs (serve_all "punkt" (booted st) demo_reqs).1)
    (Running (serve_all "punkt" (booted st) demo_reqs).2) /\
  Forall (fun x => x.2 = dispatch (app_handlers "punkt" st) x.1)
    (zip demo_reqs (serve_all "punkt" (booted st) demo_reqs).1).
Proof.
  eexists. assert (import_main online nltk_home sample_table fresh = Ok _) as Hi
    by (vm_compute; reflexivity).
  pose proof (demo_steps "punkt" _ Hi) as Hs.
  split; [exact Hi|split; [exact Hs|]].
  apply (process_responses "punkt" online nltk_home sample_table fresh _ _ _ Hi Hs).
Defined.

Lemma process_crash_silent_witness :
  load_movies table_without_category = Raise (KeyError "listed_in") /\
  steps "punkt" online nltk_home table_without_category (Booting fresh) []
    (Crashed (KeyError "listed_in")) /\
  [] = @nil (request * response) /\
  (Crashed (KeyError "listed_in") = Booting fresh \/
   Crashed (KeyError "listed_in") = Crashed (KeyError "listed_in")).
Proof.
  assert (load_movies table_without_category = Raise (KeyError "listed_in")) as He
    by reflexivity.
  assert (steps "punkt" online nltk_home table_without_category (Booting fresh) []
            (Crashed (KeyError "listed_in"))) as Hs.
  { eapply steps_silent; [apply step_crash; reflexivity|constructor]. }
  split; [exact He|split; [exact Hs|]].
  apply (process_crash_silent "punkt" online nltk_home table_without_category fresh _ _ _ He Hs).
Defined.

(** On a machine without [punkt_tab] the two [chatbot] requests of the
    demo trace both answer 500. *)
Lemma process_punkt_tab_permanent_witness :
  exists st, import_main online nltk_home sample_table fresh = Ok st /\
  steps "punkt_tab" online nltk_home sample_table (Booting fresh)
    (zip demo_reqs (serve_all "punkt_tab" (booted st) demo_reqs).1)
    (Running (serve_all "punkt_tab" (booted st) demo_reqs).2) /\
  Forall (fun x => (exists ps, route (req_path x.1) = Handle EChatbot ps) ->
                   "query" ∈ (req_query x.1).*1 -> response_status x.2 = 500%Z)
    (zip demo_reqs (serve_all "punkt_tab" (booted st) demo_reqs).1).
Proof.
  eexists. assert (import_main online nltk_home sample_table fresh = Ok _) as Hi
    by (vm_compute; reflexivity).
  pose proof (demo_steps "punkt_tab" _ Hi) as Hs.
  split; [exact Hi|split; [exact Hs|]].
  apply (process_punkt_tab_permanent "punkt_tab" online nltk_home sample_table fresh _ _ _
           eq_refl (fun d => not_elem_of_nil _) Hi Hs).
Defined.

End ProcessWitnesses.

End Process.
